(** * mon.py: the change monitor of lua-ext

    A shallow embedding of [mon.py], the script that watches the project
    tree and runs the unit tests or rebuilds the documentation when a Lua
    file changes, together with the properties of its specification.

    Python byte strings are [string]s, Python integers are [Z].  The
    command runners work on the outside world; their effects are recorded,
    in order, in a trace that is threaded through the computation.

    What the script takes from libraries is written out as far as the
    script depends on it: [str.lower], [str.rfind] and slices on byte
    strings (the letters are the ASCII ones), [os.path.splitext] and
    [os.path.join] as [genericpath.py] and [posixpath.py] define them,
    [subprocess.call], and the dispatch of events by a watchdog
    observer. *)

From Stdlib Require Import ZArith List Bool Lia Ascii String.
From Stdlib Require Import DecimalString Permutation.
Import ListNotations.

Local Open Scope string_scope.
Local Open Scope Z_scope.

(** ** Python strings *)

Module Str.

(** [c.isupper()] on a byte of a [str]: the letters [A] to [Z]. *)
Definition is_upper (c : ascii) : bool :=
  let n := nat_of_ascii c in
  (Nat.leb 65 n && Nat.leb n 90)%bool.

Definition lower_char (c : ascii) : ascii :=
  if is_upper c then ascii_of_nat (nat_of_ascii c + 32) else c.

(** [s.lower()] *)
Fixpoint lower (s : string) : string :=
  match s with
  | EmptyString => EmptyString
  | String c r => String (lower_char c) (lower r)
  end.

(** [s.rfind(c)] for a one-character [c]: the highest index at which [c]
    occurs in [s], and [-1] when it does not occur. *)
Fixpoint rfind (s : string) (c : ascii) : Z :=
  match s with
  | EmptyString => -1
  | String a r =>
      let k := rfind r c in
      if 0 <=? k then k + 1
      else if Ascii.eqb a c then 0 else -1
  end.

Fixpoint take (n : nat) (s : string) : string :=
  match n, s with
  | S n', String a r => String a (take n' r)
  | _, _ => EmptyString
  end.

Fixpoint drop (n : nat) (s : string) : string :=
  match n, s with
  | S n', String _ r => drop n' r
  | _, _ => s
  end.

(** A slice bound as Python clamps it: a negative bound counts from the
    end, and every bound is brought into [0 .. len(s)]. *)
Definition clamp (s : string) (i : Z) : nat :=
  let n := Z.of_nat (String.length s) in
  Z.to_nat (Z.min n (if i <? 0 then Z.max 0 (n + i) else i)).

(** [s[:i]] and [s[i:]] *)
Definition slice_to (s : string) (i : Z) : string := take (clamp s i) s.
Definition slice_from (s : string) (i : Z) : string := drop (clamp s i) s.

(** [s[i:i+1] != c] for [0 <= i]: the one-character slice at [i] differs
    from [c] (an empty slice, past the end, differs from it too). *)
Definition char_differs (s : string) (i : Z) (c : ascii) : bool :=
  match String.get (Z.to_nat i) s with
  | Some a => negb (Ascii.eqb a c)
  | None => true
  end.

(** [c * n] *)
Fixpoint replicate (n : nat) (c : ascii) : string :=
  match n with
  | O => EmptyString
  | S n' => String c (replicate n' c)
  end.

(** [c in s] for a character [c]. *)
Fixpoint mem (c : ascii) (s : string) : bool :=
  match s with
  | EmptyString => false
  | String a r => (Ascii.eqb a c || mem c r)%bool
  end.

(** Some character of [s] is an uppercase letter. *)
Fixpoint has_upper (s : string) : bool :=
  match s with
  | EmptyString => false
  | String a r => (is_upper a || has_upper r)%bool
  end.

(** [s.endswith(c)] *)
Fixpoint endswith (s : string) (c : ascii) : bool :=
  match s with
  | EmptyString => false
  | String a EmptyString => Ascii.eqb a c
  | String _ r => endswith r c
  end.

End Str.

(** ** [os.path] on a POSIX system *)

Module PosixPath.

Definition sep : ascii := "/"%char.
Definition extsep : ascii := "."%char.

(** The loop of [genericpath._splitext] that skips the leading dots of the
    file name:
<<
      while filenameIndex < dotIndex:
          if p[filenameIndex:filenameIndex+1] != extsep:
              return p[:dotIndex], p[dotIndex:]
          filenameIndex += 1
>>
    [Some] is the [return] inside the loop, [None] is the loop running to
    its end.  [n] counts the iterations left; [dotIndex - filenameIndex]
    of them are always enough ([splitext_loop_enough]). *)
Fixpoint splitext_loop (n : nat) (p : string) (extsep : ascii)
    (filenameIndex dotIndex : Z) : option (string * string) :=
  match n with
  | O => None
  | S n' =>
      if filenameIndex <? dotIndex then
        if Str.char_differs p filenameIndex extsep
        then Some (Str.slice_to p dotIndex, Str.slice_from p dotIndex)
        else splitext_loop n' p extsep (filenameIndex + 1) dotIndex
      else None
  end.

(** [genericpath._splitext(p, sep, altsep, extsep)] *)
Definition _splitext (p : string) (sep : ascii) (altsep : option ascii)
    (extsep : ascii) : string * string :=
  let sepIndex := Str.rfind p sep in
  let sepIndex :=
    match altsep with
    | Some a => Z.max sepIndex (Str.rfind p a)
    | None => sepIndex
    end in
  let dotIndex := Str.rfind p extsep in
  let inloop :=
    if sepIndex <? dotIndex
    then splitext_loop (Z.to_nat (dotIndex - (sepIndex + 1))) p extsep
           (sepIndex + 1) dotIndex
    else None in
  match inloop with
  | Some r => r
  | None => (p, Str.slice_to p 0)
  end.

(** [posixpath.splitext(p)] *)
Definition splitext (p : string) : string * string :=
  _splitext p sep None extsep.

(** [posixpath.join(a, b)] for two components. *)
Definition join (a b : string) : string :=
  if String.prefix (String sep EmptyString) b then b
  else if (String.eqb a EmptyString || Str.endswith a sep)%bool then a ++ b
  else a ++ String sep b.

End PosixPath.

(** ** The extension classifier *)

(** [getext(filename)]: [os.path.splitext(filename)[-1].lower()] *)
Definition getext (filename : string) : string :=
  Str.lower (snd (PosixPath.splitext filename)).

(** The classifier as the specification words it: the final path segment is
    what follows the last [/], and the extension is that segment's suffix
    from its last dot on, lowercased, or the empty string when the segment
    has no dot. *)

(** What follows the last occurrence of [c] in [s], when [c] occurs. *)
Fixpoint after_last (c : ascii) (s : string) : option string :=
  match s with
  | EmptyString => None
  | String a r =>
      match after_last c r with
      | Some t => Some t
      | None => if Ascii.eqb a c then Some r else None
      end
  end.

Definition final_segment (p : string) : string :=
  match after_last PosixPath.sep p with
  | Some t => t
  | None => p
  end.

Definition last_dot_suffix (seg : string) : string :=
  match after_last PosixPath.extsep seg with
  | Some t => String PosixPath.extsep t
  | None => EmptyString
  end.

Definition classify_spec (p : string) : string :=
  Str.lower (last_dot_suffix (final_segment p)).

(** The same with the dots that open the segment set aside: they never
    start an extension. *)
Fixpoint strip_leading_dots (s : string) : string :=
  match s with
  | String a r => if Ascii.eqb a PosixPath.extsep then strip_leading_dots r else s
  | EmptyString => EmptyString
  end.

Definition classify_skipping_dots (p : string) : string :=
  Str.lower (last_dot_suffix (strip_leading_dots (final_segment p))).

(** ** The outside world *)

Inductive stream : Type := Stdout | Stderr.

(** What a command runner does to the world, one constructor per call. *)
Inductive effect : Type :=
| Print (f : stream) (line : string)        (* print(line, file=f) *)
| Chdir (path : string)                     (* os.chdir(path) *)
| Spawn (cmd : string) (shell : bool).      (* a child process was run *)

Definition trace : Type := list effect.

Inductive exn : Type := OSError.

Inductive result (A : Type) : Type :=
| Ok (a : A) (t : trace)
| Raised (e : exn) (t : trace).
Arguments Ok {A} a t.
Arguments Raised {A} e t.

(** A computation reads the effects so far and extends them. *)
Definition M (A : Type) : Type := trace -> result A.

Definition ret {A : Type} (a : A) : M A := fun t => Ok a t.

Definition bind {A B : Type} (m : M A) (k : A -> M B) : M B :=
  fun t =>
    match m t with
    | Ok a t' => k a t'
    | Raised e t' => Raised e t'
    end.

Definition raise {A : Type} (e : exn) : M A := fun t => Raised e t.

Notation "x <- m ;; k" := (bind m (fun x => k))
  (at level 61, m at next level, right associativity).
Notation "m ;; k" := (bind m (fun _ => k))
  (at level 61, right associativity).

Definition emit (e : effect) : M unit := fun t => Ok tt (t ++ [e])%list.

Record datetime : Type := {
  year : nat; month : nat; day : nat;
  hour : nat; minute : nat; second : nat
}.

(** How the attempt to execute a program ends. *)
Inductive outcome : Type :=
| Exited (status : Z)
| NotExecutable.

(** What the script does not decide: where it lives, what the clock shows
    and how a child process ends.  Clock and children may depend on all
    that happened before. *)
Record Env : Type := {
  BASEDIR : string;
  clock : trace -> datetime;
  os_exec : trace -> string -> outcome
}.

Definition decimal (n : nat) : string :=
  NilEmpty.string_of_uint (Nat.to_uint n).

Definition pad2 (n : nat) : string :=
  if Nat.ltb n 10 then String "0" (decimal n) else decimal n.

(** [d.strftime("%Y/%m/%d %H:%M:%S")] *)
Definition strftime (d : datetime) : string :=
  decimal (year d) ++ "/" ++ pad2 (month d) ++ "/" ++ pad2 (day d) ++ " "
  ++ pad2 (hour d) ++ ":" ++ pad2 (minute d) ++ ":" ++ pad2 (second d).

Definition print (line : string) (f : stream) : M unit := emit (Print f line).

Definition os_chdir (path : string) : M unit := emit (Chdir path).

(** [subprocess.call(cmd, shell=shell)]: runs the command, waits for it and
    returns its exit status.  Without a shell the string names the program,
    and [OSError] is raised when it cannot be executed; with a shell the
    shell is what is executed, and it reports a command it cannot run by
    the status 127. *)
Definition subprocess_call (env : Env) (cmd : string) (shell : bool) : M Z :=
  fun t =>
    match os_exec env t cmd with
    | Exited status => Ok status (t ++ [Spawn cmd shell])%list
    | NotExecutable =>
        if shell then Ok 127 (t ++ [Spawn cmd shell])%list else Raised OSError t
    end.

(** ** The script *)

Section Script.

Variable env : Env.

(** [now()] *)
Definition now : M string := fun t => Ok (strftime (clock env t)) t.

Definition separator : string := Str.replicate 79 "-".

Record Event : Type := {
  src_path : string;
  is_directory : bool
}.

Definition build_docs (event : Event) : M unit :=
  ts <- now ;;
  print ("Building docs at " ++ ts) Stderr ;;
  print separator Stdout ;;
  os_chdir (BASEDIR env) ;;
  _ <- subprocess_call env "ldoc.lua src" true ;;
  print separator Stdout.

Definition run_tests (event : Event) : M unit :=
  ts <- now ;;
  print ("Running unit tests at " ++ ts) Stderr ;;
  print separator Stdout ;;
  os_chdir (BASEDIR env) ;;
  _ <- subprocess_call env "busted" false ;;
  print separator Stdout.

(** The object: its two private fields. *)
Record ChangeHandler : Type := {
  __exts : list string;
  __func : Event -> M unit
}.

(** The first argument of the constructor: a [str] or a sequence. *)
Inductive extensions_arg : Type :=
| OneString (s : string)
| Sequence (l : list string).

(** [ChangeHandler.__init__] *)
Definition ChangeHandler_init (extensions : extensions_arg)
    (func : Event -> M unit) : ChangeHandler :=
  match extensions with
  | OneString s => {| __exts := [s]; __func := func |}
  | Sequence l => {| __exts := l; __func := func |}
  end.

(** [x in l] on a list of strings. *)
Definition list_mem (x : string) (l : list string) : bool :=
  existsb (String.eqb x) l.

(** [ChangeHandler.on_any_event]; the object is passed in and handed back,
    as every method may assign to its fields. *)
Definition on_any_event (self : ChangeHandler) (event : Event)
    : M ChangeHandler :=
  if is_directory event then ret self
  else if list_mem (getext (src_path event)) (__exts self)
       then __func self event ;; ret self
       else ret self.

End Script.

(** ** The watchdog observer

    The observer is the library's; what the script relies on is modelled:
    [schedule] adds a watch, and an event is handed to [on_any_event] of the
    handler of every watch whose directory holds the event's path (any depth
    below it for a recursive watch, directly in it otherwise). *)

Record Watch : Type := {
  w_handler : ChangeHandler;
  w_path : string;
  w_recursive : bool
}.

Definition in_scope (w : Watch) (p : string) : bool :=
  let d := PosixPath.join (w_path w) "" in
  (String.prefix d p
   && (w_recursive w
       || negb (Str.mem PosixPath.sep (Str.drop (String.length d) p))))%bool.

(** One event goes to every watch in scope; each handler comes back as
    [on_any_event] left it. *)
Fixpoint dispatch_events (ws : list Watch) (event : Event)
    : M (list Watch) :=
  match ws with
  | [] => ret []
  | w :: rest =>
      if in_scope w (src_path event) then
        h <- on_any_event (w_handler w) event ;;
        rest' <- dispatch_events rest event ;;
        ret ({| w_handler := h; w_path := w_path w;
                w_recursive := w_recursive w |} :: rest')
      else
        rest' <- dispatch_events rest event ;;
        ret (w :: rest')
  end.

Fixpoint deliver (ws : list Watch) (events : list Event) : M (list Watch) :=
  match events with
  | [] => ret ws
  | e :: rest => ws' <- dispatch_events ws e ;; deliver ws' rest
  end.

(** ** The watch loop *)

(** How one [time.sleep(1)] of the main thread ends: it returns, or the
    interrupt arrives and [KeyboardInterrupt] is raised in it. *)
Inductive signal : Type := Tick | Interrupt.

(** What the main thread does, step by step.  Objects are named by the
    order of their allocation. *)
Inductive step : Type :=
| NewHandler (id : nat) (h : ChangeHandler)
| NewObserver (id : nat)
| Schedule (observer handler : nat) (path : string) (recursive : bool)
| Start (observer : nat)
| Slept
| Interrupted
| Stop (observer : nat)
| Join (observer : nat).

Record MainState : Type := {
  next_id : nat;
  log : list step
}.

Definition record (s : step) (st : MainState) : MainState :=
  {| next_id := next_id st; log := log st ++ [s] |}.

Definition allocate (mk : nat -> step) (st : MainState) : nat * MainState :=
  (next_id st, {| next_id := S (next_id st); log := log st ++ [mk (next_id st)] |}).

(** The inner loop under [try]:
<<
            while True:
                time.sleep(1)
>>
    It ends only by the interrupt, giving [Some] of the signals still to
    come; [None] when the signals observed end with the thread asleep. *)
Fixpoint sleep_loop (signals : list signal) (st : MainState)
    : MainState * option (list signal) :=
  match signals with
  | [] => (st, None)
  | Tick :: rest => sleep_loop rest (record Slept st)
  | Interrupt :: rest => (record Interrupted st, Some rest)
  end.

Section Main.

Variable env : Env.

(** [main()], over the signals its sleeps receive.  [fuel] bounds the
    rounds of the outer [while 1]; [None] is for running out of it. *)
Fixpoint main_loop (fuel : nat) (signals : list signal) (st : MainState)
    : option MainState :=
  match fuel with
  | O => None
  | S fuel' =>
      let (test_handler, st) :=
        allocate (fun id => NewHandler id
          (ChangeHandler_init (OneString ".lua") (run_tests env))) st in
      let (docs_handler, st) :=
        allocate (fun id => NewHandler id
          (ChangeHandler_init (OneString ".lua") (build_docs env))) st in
      let (observer, st) := allocate NewObserver st in
      let st := record (Schedule observer test_handler
                          (BASEDIR env) true) st in
      let st := record (Schedule observer docs_handler
                          (PosixPath.join (BASEDIR env) "src") true) st in
      let st := record (Start observer) st in
      match sleep_loop signals st with
      | (st, None) => Some st
      | (st, Some rest) =>
          let st := record (Stop observer) st in
          let st := record (Join observer) st in
          main_loop fuel' rest st
      end
  end.

(** One round for every interrupt, and the one that is left asleep. *)
Definition main (signals : list signal) : option (list step) :=
  option_map log
    (main_loop (S (List.length signals)) signals
       {| next_id := O; log := [] |}).

End Main.

(** ** Reading the log of the main thread *)

(** What is known of the heap and of the observers after some steps. *)
Record View : Type := {
  handlers : list (nat * ChangeHandler);
  table : list (nat * (nat * Watch));     (* observer, handler, watch *)
  running : list nat
}.

Definition lookup_handler (v : View) (id : nat) : option ChangeHandler :=
  option_map snd (find (fun e => Nat.eqb (fst e) id) (handlers v)).

Definition see (v : View) (s : step) : View :=
  match s with
  | NewHandler id h =>
      {| handlers := handlers v ++ [(id, h)]; table := table v;
         running := running v |}
  | Schedule o hid path recursive =>
      match lookup_handler v hid with
      | Some h =>
          {| handlers := handlers v;
             table := table v ++
               [(o, (hid, {| w_handler := h; w_path := path;
                             w_recursive := recursive |}))];
             running := running v |}
      | None => v
      end
  | Start o =>
      {| handlers := handlers v; table := table v;
         running := running v ++ [o] |}
  | Stop o =>
      {| handlers := handlers v; table := table v;
         running := filter (fun x => negb (Nat.eqb x o)) (running v) |}
  | _ => v
  end.

Definition view_of (l : list step) : View :=
  fold_left see l {| handlers := []; table := []; running := [] |}.

(** The watches of the observers that are started and not stopped. *)
Definition live_watches (l : list step) : list (nat * Watch) :=
  let v := view_of l in
  map snd (filter (fun e => existsb (Nat.eqb (fst e)) (running v)) (table v)).

(** The handler objects an event can still reach. *)
Definition live_handlers (l : list step) : list nat :=
  map fst (live_watches l).

(** How often a command was run. *)
Definition count_spawn (cmd : string) (t : trace) : nat :=
  List.length
    (filter (fun e => match e with
                      | Spawn c _ => String.eqb c cmd
                      | _ => false
                      end) t).

(** The lines printed on one stream, in order. *)
Definition printed (f : stream) (t : trace) : list string :=
  flat_map (fun e => match e, f with
                     | Print Stdout l, Stdout => [l]
                     | Print Stderr l, Stderr => [l]
                     | _, _ => []
                     end) t.

(** The commands run, each with its [shell] flag. *)
Definition spawned (t : trace) : list (string * bool) :=
  flat_map (fun e => match e with
                     | Spawn c sh => [(c, sh)]
                     | _ => []
                     end) t.

(** The effects a computation leaves, however it ends. *)
Definition effects_of {A : Type} (r : result A) : trace :=
  match r with
  | Ok _ t => t
  | Raised _ t => t
  end.

(** ** What a command runner is expected to leave *)

(** Up to the command: the banner, the opening separator, the change of
    directory.  [t] is the trace the runner starts from; the clock is read
    there. *)
Definition runner_prologue (env : Env) (label : string) (t : trace) : trace :=
  [Print Stderr (label ++ " at " ++ strftime (clock env t));
   Print Stdout separator;
   Chdir (BASEDIR env)].

(** The whole of it, when the command was run. *)
Definition runner_effects (env : Env) (label cmd : string) (shell : bool)
    (t : trace) : trace :=
  (runner_prologue env label t ++ [Spawn cmd shell; Print Stdout separator])%list.

Definition is_digit (c : ascii) : bool :=
  let n := nat_of_ascii c in
  (Nat.leb 48 n && Nat.leb n 57)%bool.

Definition all_digits (s : string) (n : nat) : bool :=
  (Nat.eqb (String.length s) n
   && forallb is_digit (list_ascii_of_string s))%bool.

(** [YYYY/MM/DD HH:MM:SS] *)
Definition timestamp_shape (s : string) : bool :=
  (all_digits (Str.take 4 s) 4
   && String.eqb (Str.take 1 (Str.drop 4 s)) "/"
   && all_digits (Str.take 2 (Str.drop 5 s)) 2
   && String.eqb (Str.take 1 (Str.drop 7 s)) "/"
   && all_digits (Str.take 2 (Str.drop 8 s)) 2
   && String.eqb (Str.take 1 (Str.drop 10 s)) " "
   && all_digits (Str.take 2 (Str.drop 11 s)) 2
   && String.eqb (Str.take 1 (Str.drop 13 s)) ":"
   && all_digits (Str.take 2 (Str.drop 14 s)) 2
   && String.eqb (Str.take 1 (Str.drop 16 s)) ":"
   && all_digits (Str.drop 17 s) 2)%bool.

(** A date of four-digit year, as the clock of a running system shows. *)
Definition valid_datetime (d : datetime) : bool :=
  (Nat.leb 1000 (year d) && Nat.ltb (year d) (100 * 100)
   && Nat.leb 1 (month d) && Nat.leb (month d) 12
   && Nat.leb 1 (day d) && Nat.leb (day d) 31
   && Nat.ltb (hour d) 24 && Nat.ltb (minute d) 60
   && Nat.ltb (second d) 60)%bool.

(** ** A sample world

    The project lives in [/home/dev/lua-ext]; the clock stands still; the
    documentation builds, and the tests fail with status 1. *)
Definition sample_env : Env :=
  {| BASEDIR := "/home/dev/lua-ext";
     clock := fun _ =>
       {| year := 2013; month := 4; day := 9;
          hour := 17; minute := 5; second := 30 |};
     os_exec := fun _ cmd =>
       if String.eqb cmd "busted" then Exited 1 else Exited 0 |}.

(** The same machine without a test runner installed. *)
Definition bare_env : Env :=
  {| BASEDIR := BASEDIR sample_env;
     clock := clock sample_env;
     os_exec := fun _ _ => NotExecutable |}.

Definition file_event (p : string) : Event :=
  {| src_path := p; is_directory := false |}.

Definition directory_event (p : string) : Event :=
  {| src_path := p; is_directory := true |}.

(** A stand-in for an action, as a test would bind one: it notes the path of
    the event it is called with. *)
Definition probe (event : Event) : M unit := print (src_path event) Stdout.

(** A result without the value it carries: how the computation ended and
    what it did. *)
Definition outcome_of {A : Type} (r : result A) : result unit :=
  match r with
  | Ok _ t => Ok tt t
  | Raised e t => Raised e t
  end.

(** ** What the watch loop is expected to do *)

Definition interrupts (signals : list signal) : nat :=
  List.length (filter (fun s => match s with
                                | Interrupt => true
                                | Tick => false
                                end) signals).

Definition test_watch (env : Env) : Watch :=
  {| w_handler := ChangeHandler_init (OneString ".lua") (run_tests env);
     w_path := BASEDIR env;
     w_recursive := true |}.

Definition docs_watch (env : Env) : Watch :=
  {| w_handler := ChangeHandler_init (OneString ".lua") (build_docs env);
     w_path := PosixPath.join (BASEDIR env) "src";
     w_recursive := true |}.

(** One round up to its sleep, the objects allocated from [n] on: two
    handlers, an observer, the two watches, the start. *)
Definition setup_steps (env : Env) (n : nat) : list step :=
  [NewHandler n (w_handler (test_watch env));
   NewHandler (1 + n) (w_handler (docs_watch env));
   NewObserver (2 + n);
   Schedule (2 + n) n (w_path (test_watch env)) true;
   Schedule (2 + n) (1 + n) (w_path (docs_watch env)) true;
   Start (2 + n)].

(** The sleeps of a round set up from [n] on, and the rounds after it. *)
Fixpoint watch_steps (env : Env) (n : nat) (signals : list signal)
    : list step :=
  match signals with
  | [] => []
  | Tick :: rest => Slept :: watch_steps env n rest
  | Interrupt :: rest =>
      ([Interrupted; Stop (2 + n); Join (2 + n)]
       ++ setup_steps env (3 + n) ++ watch_steps env (3 + n) rest)%list
  end.

(** Nothing runs; every object known is older than [n]. *)
Definition Idle (n : nat) (v : View) : Prop :=
  running v = []
  /\ (forall e, In e (table v) -> (fst e < n)%nat)
  /\ (forall e, In e (handlers v) -> (fst e < n)%nat).

(** The observer of the round set up from [n] on is the one that runs, and
    its watches are the two of that round. *)
Definition Watching (env : Env) (n : nat) (v : View) : Prop :=
  running v = [(2 + n)%nat]
  /\ map snd (filter (fun e => existsb (Nat.eqb (fst e)) [(2 + n)%nat])
                (table v))
     = [(n, test_watch env); ((1 + n)%nat, docs_watch env)]
  /\ (forall e, In e (table v) -> (fst e < 3 + n)%nat)
  /\ (forall e, In e (handlers v) -> (fst e < 3 + n)%nat).

(** The watches an event reaches after the main thread got [signals]. *)
Definition watching (env : Env) (signals : list signal) : list Watch :=
  match main env signals with
  | Some l => map snd (live_watches l)
  | None => []
  end.


(** ** Notions for the further properties *)

(** A string free of dots, separators and uppercase letters. *)
Definition plain_suffix (s : string) : bool :=
  (negb (Str.mem PosixPath.extsep s) && negb (Str.mem PosixPath.sep s)
   && negb (Str.has_upper s))%bool.

(** What an extension can look like: empty, or a dot and a plain suffix. *)
Definition well_formed_ext (e : string) : bool :=
  match e with
  | EmptyString => true
  | String c r => (Ascii.eqb c PosixPath.extsep && plain_suffix r)%bool
  end.



(** The event makes the handler of the watch call its action. *)
Definition triggers (w : Watch) (event : Event) : bool :=
  (negb (is_directory event)
   && in_scope w (src_path event)
   && list_mem (getext (src_path event)) (__exts (w_handler w)))%bool.










(** * Properties *)

(** ** Strings *)

Section StringFacts.

Lemma rfind_lower_bound (s : string) (c : ascii) : -1 <= Str.rfind s c.
Proof.
  induction s as [|a r IH]; simpl; [lia|].
  destruct (0 <=? Str.rfind r c) eqn:E; [lia|].
  destruct (Ascii.eqb a c); lia.
Qed.

Lemma rfind_upper_bound (s : string) (c : ascii) :
  Str.rfind s c < Z.of_nat (String.length s).
Proof.
  induction s as [|a r IH]; simpl String.length; simpl Str.rfind; [lia|].
  destruct (0 <=? Str.rfind r c) eqn:E; [lia|].
  destruct (Ascii.eqb a c); lia.
Qed.

(** [rfind] and [after_last] find the same occurrence. *)
Lemma rfind_after_last (s : string) (c : ascii) :
  match after_last c s with
  | None => Str.rfind s c = -1
  | Some t =>
      0 <= Str.rfind s c /\
      Str.drop (Z.to_nat (Str.rfind s c)) s = String c t
  end.
Proof.
  induction s as [|a r IH]; simpl; [reflexivity|].
  destruct (after_last c r) as [t|].
  - destruct IH as [Hk Hd].
    apply Z.leb_le in Hk as Hk'. rewrite Hk'. split; [lia|].
    replace (Z.to_nat (Str.rfind r c + 1)) with (S (Z.to_nat (Str.rfind r c)))
      by lia.
    exact Hd.
  - rewrite IH. simpl.
    destruct (Ascii.eqb_spec a c) as [->|]; [|reflexivity].
    split; [lia|reflexivity].
Qed.

Lemma rfind_drop (s : string) (c : ascii) (n : nat) :
  Str.rfind (Str.drop n s) c =
  if Z.of_nat n <=? Str.rfind s c then Str.rfind s c - Z.of_nat n else -1.
Proof.
  revert s. induction n as [|n IH]; intros s.
  - pose proof (rfind_lower_bound s c).
    replace (Str.drop 0 s) with s by (destruct s; reflexivity).
    destruct (Z.of_nat 0 <=? Str.rfind s c) eqn:E.
    + lia.
    + apply Z.leb_gt in E. lia.
  - destruct s as [|a r].
    + simpl Str.drop. simpl Str.rfind.
      destruct (Z.of_nat (S n) <=? -1) eqn:E; [apply Z.leb_le in E; lia|].
      reflexivity.
    + simpl Str.drop. rewrite IH. simpl Str.rfind.
      pose proof (rfind_lower_bound r c).
      destruct (0 <=? Str.rfind r c) eqn:E0.
      * apply Z.leb_le in E0.
        destruct (Z.of_nat n <=? Str.rfind r c) eqn:E1;
          destruct (Z.of_nat (S n) <=? Str.rfind r c + 1) eqn:E2;
          try apply Z.leb_le in E1; try apply Z.leb_le in E2;
          try apply Z.leb_gt in E1; try apply Z.leb_gt in E2; lia.
      * apply Z.leb_gt in E0.
        destruct (Z.of_nat n <=? Str.rfind r c) eqn:E1;
          [apply Z.leb_le in E1; lia|].
        destruct (Ascii.eqb a c);
          match goal with
          | |- context [?x <=? ?y] => destruct (x <=? y) eqn:E2
          end; try apply Z.leb_le in E2; lia.
Qed.

Lemma after_last_cons (c a : ascii) (r t : string) :
  after_last c r = Some t -> after_last c (String a r) = Some t.
Proof. intros H. simpl. rewrite H. reflexivity. Qed.

Lemma after_last_drop (c : ascii) (n : nat) (s t : string) :
  after_last c (Str.drop n s) = Some t -> after_last c s = Some t.
Proof.
  revert s. induction n as [|n IH]; intros s H.
  - destruct s; exact H.
  - destruct s as [|a r]; [exact H|].
    apply after_last_cons, IH, H.
Qed.

Lemma after_last_strip (s t : string) :
  after_last PosixPath.extsep (strip_leading_dots s) = Some t ->
  after_last PosixPath.extsep s = Some t.
Proof.
  induction s as [|a r IH]; intros H; [exact H|].
  simpl strip_leading_dots in H.
  destruct (Ascii.eqb a PosixPath.extsep); [|exact H].
  apply after_last_cons, IH, H.
Qed.

Lemma after_last_mem (c : ascii) (s : string) :
  Str.mem c s = match after_last c s with Some _ => true | None => false end.
Proof.
  induction s as [|a r IH]; simpl; [reflexivity|].
  rewrite IH. destruct (after_last c r).
  - apply orb_true_r.
  - rewrite orb_false_r. destruct (Ascii.eqb a c); reflexivity.
Qed.

Lemma mem_rfind (c : ascii) (s : string) :
  Str.mem c s = (0 <=? Str.rfind s c).
Proof.
  rewrite after_last_mem. pose proof (rfind_after_last s c) as H.
  destruct (after_last c s).
  - destruct H as [H _]. symmetry. apply Z.leb_le, H.
  - rewrite H. reflexivity.
Qed.

Lemma mem_strip (s : string) :
  Str.mem PosixPath.extsep (strip_leading_dots s) = true ->
  Str.mem PosixPath.extsep s = true.
Proof.
  rewrite !after_last_mem.
  destruct (after_last _ (strip_leading_dots s)) eqn:E; [|discriminate].
  rewrite (after_last_strip _ _ E). reflexivity.
Qed.

Lemma drop_get (n : nat) (p : string) (a : ascii) (r : string) :
  Str.drop n p = String a r ->
  String.get n p = Some a /\ Str.drop (S n) p = r.
Proof.
  revert p. induction n as [|n IH]; intros p H.
  - destruct p; simpl in H; [discriminate|].
    injection H as -> ->. split; reflexivity.
  - destruct p as [|b q]; simpl in H; [discriminate|].
    apply IH in H. exact H.
Qed.

End StringFacts.

(** ** The extension classifier *)

Section Classifier.

(** The loop, started at the segment [seg] of [p] whose last dot lies at
    [dotIndex]: it returns from its body exactly when a dot is left once
    the opening dots of [seg] are gone.  The iterations allowed for are
    those the loop makes. *)
Lemma splitext_loop_enough (seg p : string) (i d : Z) :
  0 <= i ->
  Str.drop (Z.to_nat i) p = seg ->
  Str.rfind seg PosixPath.extsep = d - i ->
  0 <= d - i ->
  PosixPath.splitext_loop (Z.to_nat (d - i)) p PosixPath.extsep i d =
  if Str.mem PosixPath.extsep (strip_leading_dots seg)
  then Some (Str.slice_to p d, Str.slice_from p d)
  else None.
Proof.
  revert i. induction seg as [|a r IH]; intros i Hi Hdrop Hr Hpos.
  - simpl in Hr. lia.
  - apply drop_get in Hdrop as [Hget Hrest].
    simpl in Hr. simpl strip_leading_dots.
    pose proof (rfind_lower_bound r PosixPath.extsep) as Hlow.
    destruct (0 <=? Str.rfind r PosixPath.extsep) eqn:E.
    + apply Z.leb_le in E.
      replace (Z.to_nat (d - i)) with (S (Z.to_nat (d - (i + 1)))) by lia.
      simpl PosixPath.splitext_loop.
      replace (i <? d) with true by (symmetry; apply Z.ltb_lt; lia).
      unfold Str.char_differs. rewrite Hget.
      destruct (Ascii.eqb a PosixPath.extsep) eqn:Ea; simpl negb; cbv iota.
      * apply IH; try lia.
        replace (Z.to_nat (i + 1)) with (S (Z.to_nat i)) by lia.
        exact Hrest.
      * simpl Str.mem. rewrite Ea. simpl.
        rewrite mem_rfind.
        replace (0 <=? Str.rfind r PosixPath.extsep) with true
          by (symmetry; apply Z.leb_le; lia).
        reflexivity.
    + apply Z.leb_gt in E.
      destruct (Ascii.eqb a PosixPath.extsep) eqn:Ea; [|lia].
      replace (d - i) with 0 by lia. simpl PosixPath.splitext_loop.
      destruct (Str.mem PosixPath.extsep (strip_leading_dots r)) eqn:Em; [|reflexivity].
      apply mem_strip in Em. rewrite mem_rfind in Em.
      apply Z.leb_le in Em. lia.
Qed.

Lemma final_segment_drop (p : string) :
  final_segment p = Str.drop (Z.to_nat (Str.rfind p PosixPath.sep + 1)) p.
Proof.
  unfold final_segment.
  pose proof (rfind_after_last p PosixPath.sep) as H.
  destruct (after_last PosixPath.sep p) as [t|].
  - destruct H as [Hk Hd].
    replace (Z.to_nat (Str.rfind p PosixPath.sep + 1))
      with (S (Z.to_nat (Str.rfind p PosixPath.sep))) by lia.
    apply drop_get in Hd as [_ Hd]. symmetry. exact Hd.
  - rewrite H. simpl. destruct p; reflexivity.
Qed.

Lemma slice_to_zero (p : string) : Str.slice_to p 0 = EmptyString.
Proof.
  unfold Str.slice_to, Str.clamp. change (0 <? 0) with false. cbv iota.
  rewrite Z.min_r by lia. destruct p; reflexivity.
Qed.

Lemma slice_from_index (p : string) (c : ascii) :
  0 <= Str.rfind p c ->
  Str.slice_from p (Str.rfind p c) = Str.drop (Z.to_nat (Str.rfind p c)) p.
Proof.
  intros H. unfold Str.slice_from, Str.clamp.
  pose proof (rfind_upper_bound p c).
  replace (Str.rfind p c <? 0) with false by (symmetry; apply Z.ltb_ge; lia).
  rewrite Z.min_r by lia. reflexivity.
Qed.

(** The classifier of the script, for every path: the suffix from the last
    dot of the final segment, its opening dots set aside. *)
Lemma getext_skipping_dots (p : string) :
  getext p = classify_skipping_dots p.
Proof.
  unfold getext, classify_skipping_dots, PosixPath.splitext,
    PosixPath._splitext.
  set (sI := Str.rfind p PosixPath.sep).
  set (dI := Str.rfind p PosixPath.extsep).
  pose proof (rfind_lower_bound p PosixPath.sep) as Hs. fold sI in Hs.
  assert (Hseg : Str.rfind (final_segment p) PosixPath.extsep =
                 if sI + 1 <=? dI then dI - (sI + 1) else -1).
  { rewrite final_segment_drop, rfind_drop. fold sI dI.
    replace (Z.of_nat (Z.to_nat (sI + 1))) with (sI + 1) by lia.
    reflexivity. }
  destruct (sI <? dI) eqn:E.
  - apply Z.ltb_lt in E.
    replace (sI + 1 <=? dI) with true in Hseg
      by (symmetry; apply Z.leb_le; lia).
    rewrite (splitext_loop_enough (final_segment p) p (sI + 1) dI);
      try lia; [|symmetry; apply final_segment_drop].
    unfold last_dot_suffix. rewrite after_last_mem.
    destruct (after_last PosixPath.extsep (strip_leading_dots (final_segment p)))
      as [t|] eqn:Ea.
    + apply after_last_strip in Ea. rewrite final_segment_drop in Ea.
      apply after_last_drop in Ea.
      pose proof (rfind_after_last p PosixPath.extsep) as H. rewrite Ea in H.
      destruct H as [H0 Hd]. simpl snd. unfold dI.
      rewrite slice_from_index by exact H0. rewrite Hd. reflexivity.
    + simpl snd. rewrite slice_to_zero. reflexivity.
  - apply Z.ltb_ge in E.
    replace (sI + 1 <=? dI) with false in Hseg
      by (symmetry; apply Z.leb_gt; lia).
    unfold last_dot_suffix.
    destruct (after_last PosixPath.extsep (strip_leading_dots (final_segment p)))
      as [t|] eqn:Ea; [|simpl snd; rewrite slice_to_zero; reflexivity].
    apply after_last_strip in Ea.
    pose proof (rfind_after_last (final_segment p) PosixPath.extsep) as H.
    rewrite Ea in H. lia.
Qed.

End Classifier.

Example getext_no_extension : getext "README" = "".
Proof. reflexivity. Qed.

Example getext_lowercases : getext "a/b/c.LUA" = ".lua".
Proof. reflexivity. Qed.

Example getext_dot_in_directory : getext "a.b/c" = "".
Proof. reflexivity. Qed.

Example getext_after_leading_dot : getext "x/.a.B" = ".b".
Proof. reflexivity. Qed.

Example getext_trailing_dot : getext "a." = ".".
Proof. reflexivity. Qed.

Example getext_only_dots : getext "lib/..lua" = "".
Proof. reflexivity. Qed.

(** ** The command runners *)

Section Runners.

Variable env : Env.

Lemma snoc3 (t : trace) (a b c : effect) :
  (((t ++ [a]) ++ [b]) ++ [c] = t ++ [a; b; c])%list.
Proof. rewrite <- !app_assoc. reflexivity. Qed.

(** The documentation build runs to its end, whatever the command does. *)
Lemma build_docs_runs (event : Event) (t : trace) :
  build_docs env event t =
  Ok tt (t ++ runner_effects env "Building docs" "ldoc.lua src" true t)%list.
Proof.
  unfold build_docs, bind, now, print, os_chdir, emit, subprocess_call.
  rewrite snoc3.
  unfold runner_effects, runner_prologue.
  destruct (os_exec env _ _); rewrite <- !app_assoc; reflexivity.
Qed.

(** The test run, by what becomes of the attempt to execute [busted]. *)
Lemma run_tests_runs (event : Event) (t : trace) :
  run_tests env event t =
  match os_exec env (t ++ runner_prologue env "Running unit tests" t)%list
          "busted" with
  | Exited _ =>
      Ok tt (t ++ runner_effects env "Running unit tests" "busted" false t)%list
  | NotExecutable =>
      Raised OSError (t ++ runner_prologue env "Running unit tests" t)%list
  end.
Proof.
  unfold run_tests, bind, now, print, os_chdir, emit, subprocess_call.
  rewrite snoc3.
  unfold runner_effects, runner_prologue.
  destruct (os_exec env _ _); [rewrite <- !app_assoc|]; reflexivity.
Qed.

End Runners.

(** ** The time stamp *)

Section Timestamp.

Lemma decimal_year (y : nat) :
  (1000 <= y < 100 * 100)%nat -> all_digits (decimal y) 4 = true.
Proof.
  intros H.
  assert (A : forallb (fun n => all_digits (decimal n) 4)
                (seq 1000 (90 * 100)) = true) by (vm_compute; reflexivity).
  rewrite forallb_forall in A. apply A, in_seq. lia.
Qed.

Lemma pad2_digits (n : nat) :
  (n < 100)%nat -> all_digits (pad2 n) 2 = true.
Proof.
  intros H.
  assert (A : forallb (fun n => all_digits (pad2 n) 2) (seq 0 100) = true)
    by (vm_compute; reflexivity).
  rewrite forallb_forall in A. apply A, in_seq. lia.
Qed.

Lemma two_digits (s : string) :
  all_digits s 2 = true ->
  exists a b, s = String a (String b EmptyString)
              /\ is_digit a = true /\ is_digit b = true.
Proof.
  destruct s as [|a [|b [|c r]]]; try discriminate.
  unfold all_digits. simpl. rewrite andb_true_r. intros H.
  apply andb_true_iff in H as [Ha Hb]. exists a, b. auto.
Qed.

Lemma four_digits (s : string) :
  all_digits s 4 = true ->
  exists a b c d,
    s = String a (String b (String c (String d EmptyString)))
    /\ is_digit a = true /\ is_digit b = true
    /\ is_digit c = true /\ is_digit d = true.
Proof.
  destruct s as [|a [|b [|c [|d [|e r]]]]]; try discriminate.
  unfold all_digits. simpl. rewrite andb_true_r. intros H.
  apply andb_true_iff in H as [Ha H].
  apply andb_true_iff in H as [Hb H].
  apply andb_true_iff in H as [Hc Hd].
  exists a, b, c, d. auto.
Qed.

(** The stamp of a valid date reads [YYYY/MM/DD HH:MM:SS]. *)
Lemma strftime_shape (d : datetime) :
  valid_datetime d = true -> timestamp_shape (strftime d) = true.
Proof.
  unfold valid_datetime. rewrite !andb_true_iff.
  intros [[[[[[[[Hy1 Hy2] Hm1] Hm2] Hd1] Hd2] Hh] Hmi] Hs].
  apply Nat.leb_le in Hy1, Hm1, Hm2, Hd1, Hd2.
  apply Nat.ltb_lt in Hy2, Hh, Hmi, Hs.
  destruct (four_digits (decimal (year d))) as (y1 & y2 & y3 & y4 & Ey & ?);
    [apply decimal_year; lia|].
  destruct (two_digits (pad2 (month d))) as (m1 & m2 & Em & ? & ?);
    [apply pad2_digits; lia|].
  destruct (two_digits (pad2 (day d))) as (d1 & d2 & Ed & ? & ?);
    [apply pad2_digits; lia|].
  destruct (two_digits (pad2 (hour d))) as (h1 & h2 & Eh & ? & ?);
    [apply pad2_digits; lia|].
  destruct (two_digits (pad2 (minute d))) as (i1 & i2 & Ei & ? & ?);
    [apply pad2_digits; lia|].
  destruct (two_digits (pad2 (second d))) as (s1 & s2 & Es & ? & ?);
    [apply pad2_digits; lia|].
  unfold strftime. rewrite Ey, Em, Ed, Eh, Ei, Es.
  unfold timestamp_shape, all_digits. simpl.
  repeat match goal with
         | H : is_digit _ = true /\ _ |- _ => destruct H
         end.
  repeat match goal with
         | H : is_digit _ = true |- _ => rewrite H; clear H
         end.
  reflexivity.
Qed.

End Timestamp.

(** ** The change handler *)

Section Handler.

Lemma list_mem_In (x : string) (l : list string) :
  list_mem x l = true <-> In x l.
Proof.
  unfold list_mem. rewrite existsb_exists. split.
  - intros (y & Hy & E). apply String.eqb_eq in E. subst y. exact Hy.
  - intros H. exists x. split; [exact H|apply String.eqb_refl].
Qed.

Lemma list_mem_not_In (x : string) (l : list string) :
  list_mem x l = false <-> ~ In x l.
Proof.
  rewrite <- list_mem_In. destruct (list_mem x l); split; intros H;
    congruence.
Qed.

Lemma on_directory_event (h : ChangeHandler) (event : Event) (t : trace) :
  is_directory event = true -> on_any_event h event t = Ok h t.
Proof. intros H. unfold on_any_event. rewrite H. reflexivity. Qed.

Lemma on_watched_file (h : ChangeHandler) (event : Event) (t : trace) :
  is_directory event = false ->
  In (getext (src_path event)) (__exts h) ->
  on_any_event h event t = (__func h event ;; ret h) t.
Proof.
  intros Hd Hin. unfold on_any_event. rewrite Hd.
  apply list_mem_In in Hin. rewrite Hin. reflexivity.
Qed.

Lemma on_other_file (h : ChangeHandler) (event : Event) (t : trace) :
  is_directory event = false ->
  ~ In (getext (src_path event)) (__exts h) ->
  on_any_event h event t = Ok h t.
Proof.
  intros Hd Hin. unfold on_any_event. rewrite Hd.
  apply list_mem_not_In in Hin. rewrite Hin. reflexivity.
Qed.

(** The method hands the object back as it got it. *)
Lemma on_any_event_self (h h' : ChangeHandler) (event : Event)
    (t t' : trace) :
  on_any_event h event t = Ok h' t' -> h' = h.
Proof.
  unfold on_any_event, bind, ret.
  destruct (is_directory event); [congruence|].
  destruct (list_mem _ _); [|congruence].
  destruct (__func h event t); congruence.
Qed.

Lemma dispatch_events_same (ws ws' : list Watch) (event : Event)
    (t t' : trace) :
  dispatch_events ws event t = Ok ws' t' -> ws' = ws.
Proof.
  revert ws' t t'. induction ws as [|w rest IH]; intros ws' t t' H.
  - simpl in H. unfold ret in H. congruence.
  - simpl in H. unfold bind, ret in H.
    destruct (in_scope w (src_path event)).
    + destruct (on_any_event (w_handler w) event t) as [h t1|] eqn:E1;
        [|discriminate].
      apply on_any_event_self in E1. subst h.
      destruct (dispatch_events rest event t1) as [r t2|] eqn:E2;
        [|discriminate].
      apply IH in E2. subst r. destruct w. simpl in H. congruence.
    + destruct (dispatch_events rest event t) as [r t2|] eqn:E2;
        [|discriminate].
      apply IH in E2. subst r. congruence.
Qed.

Lemma deliver_same (events : list Event) (ws ws' : list Watch)
    (t t' : trace) :
  deliver ws events t = Ok ws' t' -> ws' = ws.
Proof.
  revert ws ws' t t'.
  induction events as [|e rest IH]; intros ws ws' t t' H.
  - simpl in H. unfold ret in H. congruence.
  - simpl in H. unfold bind in H.
    destruct (dispatch_events ws e t) as [ws1 t1|] eqn:E; [|discriminate].
    apply dispatch_events_same in E. subst ws1.
    apply IH in H. exact H.
Qed.

Lemma list_mem_permutation (x : string) (l l' : list string) :
  Permutation l l' -> list_mem x l = list_mem x l'.
Proof.
  intros P.
  destruct (list_mem x l') eqn:E.
  - apply list_mem_In. apply list_mem_In in E.
    apply Permutation_in with (l := l'); [symmetry; exact P|exact E].
  - apply list_mem_not_In. apply list_mem_not_In in E.
    intros H. apply E. apply Permutation_in with (l := l); assumption.
Qed.

Lemma lower_char_not_upper (c : ascii) :
  Str.is_upper (Str.lower_char c) = false.
Proof.
  destruct c as [[] [] [] [] [] [] [] []]; reflexivity.
Qed.

Lemma lower_has_no_upper (s : string) : Str.has_upper (Str.lower s) = false.
Proof.
  induction s as [|a r IH]; [reflexivity|].
  simpl. rewrite lower_char_not_upper, IH. reflexivity.
Qed.



End Handler.

(** ** The watch loop *)

Section WatchLoop.

Variable env : Env.

Lemma interrupts_app (a b : list signal) :
  interrupts (a ++ b) = (interrupts a + interrupts b)%nat.
Proof. unfold interrupts. rewrite filter_app, length_app. reflexivity. Qed.

Lemma interrupts_length (signals : list signal) :
  (interrupts signals <= List.length signals)%nat.
Proof. apply filter_length_le. Qed.

Lemma watch_steps_app (a b : list signal) (n : nat) :
  watch_steps env n (a ++ b) =
  (watch_steps env n a ++ watch_steps env (3 * interrupts a + n) b)%list.
Proof.
  revert n. induction a as [|[|] a IH]; intros n.
  - reflexivity.
  - simpl. rewrite IH. reflexivity.
  - cbn [app watch_steps]. rewrite IH.
    replace (3 * interrupts (Interrupt :: a) + n)%nat
      with (3 * interrupts a + (3 + n))%nat
      by (unfold interrupts; simpl; lia).
    rewrite <- !app_assoc. reflexivity.
Qed.

(** The sleeps of one round, and what comes after them when the rounds to
    come behave. *)
Lemma sleep_then_restart (fuel n : nat) :
  (forall signals st,
      (interrupts signals < fuel)%nat ->
      main_loop env fuel signals st =
      Some {| next_id := 3 * S (interrupts signals) + next_id st;
              log := log st ++ setup_steps env (next_id st)
                     ++ watch_steps env (next_id st) signals |}) ->
  forall signals st,
    (interrupts signals <= fuel)%nat ->
    next_id st = (3 + n)%nat ->
    match sleep_loop signals st with
    | (st1, None) => Some st1
    | (st1, Some rest) =>
        main_loop env fuel rest
          (record (Join (2 + n)) (record (Stop (2 + n)) st1))
    end =
    Some {| next_id := 3 * S (interrupts signals) + n;
            log := log st ++ watch_steps env n signals |}.
Proof.
  intros IHfuel. induction signals as [|[|] rest IH]; intros st Hf Hn.
  - simpl. rewrite app_nil_r. destruct st as [i l]. simpl in *. subst i.
    reflexivity.
  - simpl sleep_loop. rewrite IH; [|exact Hf|exact Hn].
    simpl. rewrite <- app_assoc. reflexivity.
  - cbn [sleep_loop]. unfold interrupts in Hf. simpl in Hf.
    rewrite IHfuel by exact Hf.
    cbn [record next_id log watch_steps]. rewrite Hn. f_equal. f_equal.
    + unfold interrupts. simpl. lia.
    + rewrite <- !app_assoc. reflexivity.
Qed.

(** The loop never runs out of rounds when it is given one more than
    there are interrupts. *)
Lemma main_loop_steps (fuel : nat) :
  forall signals st,
    (interrupts signals < fuel)%nat ->
    main_loop env fuel signals st =
    Some {| next_id := 3 * S (interrupts signals) + next_id st;
            log := log st ++ setup_steps env (next_id st)
                   ++ watch_steps env (next_id st) signals |}.
Proof.
  induction fuel as [|fuel IH]; intros signals st Hf; [lia|].
  cbn [main_loop allocate record next_id log].
  etransitivity.
  { apply (sleep_then_restart fuel (next_id st) IH signals);
      [lia|reflexivity]. }
  cbn [record next_id log setup_steps test_watch docs_watch w_handler w_path].
  f_equal. f_equal. rewrite <- !app_assoc. reflexivity.
Qed.

Lemma main_steps (signals : list signal) :
  main env signals =
  Some (setup_steps env 0 ++ watch_steps env 0 signals)%list.
Proof.
  unfold main. rewrite main_loop_steps.
  - reflexivity.
  - pose proof (interrupts_length signals). lia.
Qed.

End WatchLoop.

(** ** The observers and handlers the log tells of *)

Section Views.

Variable env : Env.

Lemma find_app_none {A : Type} (f : A -> bool) (l l' : list A) :
  (forall e, In e l -> f e = false) -> find f (l ++ l') = find f l'.
Proof.
  induction l as [|a l IH]; intros H; [reflexivity|].
  simpl. rewrite (H a) by (left; reflexivity).
  apply IH. intros e He. apply H. right. exact He.
Qed.

Lemma filter_none {A : Type} (f : A -> bool) (l : list A) :
  (forall e, In e l -> f e = false) -> filter f l = [].
Proof.
  induction l as [|a l IH]; intros H; [reflexivity|].
  simpl. rewrite (H a) by (left; reflexivity).
  apply IH. intros e He. apply H. right. exact He.
Qed.

Lemma lookup_fresh (hs : list (nat * ChangeHandler)) (tb : list _)
    (rn : list nat) (n : nat) (h1 h2 : ChangeHandler) :
  (forall e, In e hs -> (fst e < n)%nat) ->
  let v := {| handlers := (hs ++ [(n, h1)]) ++ [((1 + n)%nat, h2)];
              table := tb; running := rn |} in
  lookup_handler v n = Some h1 /\ lookup_handler v (1 + n) = Some h2.
Proof.
  intros H v. unfold lookup_handler, v. cbn [handlers].
  rewrite <- !app_assoc. split.
  - rewrite find_app_none.
    + simpl. rewrite Nat.eqb_refl. reflexivity.
    + intros e He. apply H in He. apply Nat.eqb_neq.
      cbn beta. lia.
  - rewrite find_app_none.
    + cbn [app find fst]. replace (n =? 1 + n)%nat with false
        by (symmetry; apply Nat.eqb_neq; lia).
      rewrite Nat.eqb_refl. reflexivity.
    + intros e He. apply H in He. apply Nat.eqb_neq. cbn beta. lia.
Qed.

(** Setting a round up from nothing running gives its observer running
    with the two watches of the round. *)
Lemma view_setup (n : nat) (v : View) :
  Idle n v -> Watching env n (fold_left see (setup_steps env n) v).
Proof.
  intros (Hr & Ht & Hh). destruct v as [hs tb rn]. cbn [running table handlers] in *.
  subst rn.
  destruct (lookup_fresh hs tb [] n (w_handler (test_watch env))
              (w_handler (docs_watch env)) Hh) as [L1 L2].
  cbn [fold_left setup_steps see handlers table running].
  rewrite L1.
  cbn [handlers table running].
  match goal with
  | |- context [lookup_handler ?v (1 + n)] =>
      replace (lookup_handler v (1 + n)) with
        (Some (w_handler (docs_watch env)))
  end.
  cbn [handlers table running app].
  unfold Watching. cbn [handlers table running].
  repeat split.
  - rewrite <- !app_assoc, filter_app, filter_none.
    + cbn [app filter existsb fst]. rewrite Nat.eqb_refl. reflexivity.
    + intros e He. apply Ht in He. cbn [existsb].
      rewrite orb_false_r. apply Nat.eqb_neq. lia.
  - intros e He. rewrite !in_app_iff in He.
    destruct He as [[He|He]|He].
    + apply Ht in He. lia.
    + destruct He as [<-|[]]. cbn [fst]. lia.
    + destruct He as [<-|[]]. cbn [fst]. lia.
  - intros e He. rewrite !in_app_iff in He.
    destruct He as [[He|He]|He].
    + apply Hh in He. lia.
    + destruct He as [<-|[]]. cbn [fst]. lia.
    + destruct He as [<-|[]]. cbn [fst]. lia.
Qed.

(** The interrupt stops the observer; then nothing runs. *)
Lemma view_stop (n : nat) (v : View) :
  Watching env n v ->
  Idle (3 + n) (fold_left see [Interrupted; Stop (2 + n); Join (2 + n)] v).
Proof.
  intros (Hr & _ & Ht & Hh).
  cbn [fold_left see]. unfold Idle. cbn [running table handlers].
  rewrite Hr. cbn [filter]. rewrite Nat.eqb_refl. cbn [negb].
  repeat split; assumption.
Qed.

Lemma view_watch_steps (signals : list signal) :
  forall n v,
    Watching env n v ->
    Watching env (3 * interrupts signals + n)
      (fold_left see (watch_steps env n signals) v).
Proof.
  induction signals as [|[|] rest IH]; intros n v W.
  - exact W.
  - cbn [watch_steps fold_left see]. apply IH in W. exact W.
  - cbn [watch_steps]. rewrite !fold_left_app.
    replace (3 * interrupts (Interrupt :: rest) + n)%nat
      with (3 * interrupts rest + (3 + n))%nat
      by (unfold interrupts; simpl; lia).
    apply IH, view_setup, view_stop, W.
Qed.

Lemma view_main (signals : list signal) :
  Watching env (3 * interrupts signals)
    (view_of (setup_steps env 0 ++ watch_steps env 0 signals)).
Proof.
  unfold view_of. rewrite fold_left_app.
  replace (3 * interrupts signals)%nat
    with (3 * interrupts signals + 0)%nat by lia.
  apply view_watch_steps, view_setup.
  repeat split; intros e [].
Qed.

Lemma live_watches_watching (n : nat) (l : list step) :
  Watching env n (view_of l) ->
  live_watches l = [(n, test_watch env); ((1 + n)%nat, docs_watch env)].
Proof.
  intros (Hr & Hw & _). unfold live_watches. rewrite Hr. exact Hw.
Qed.

Lemma live_watches_idle (l : list step) :
  running (view_of l) = [] -> live_watches l = [].
Proof.
  intros Hr. unfold live_watches. rewrite Hr.
  rewrite filter_none; reflexivity.
Qed.

Lemma view_of_app (l l' : list step) :
  view_of (l ++ l') = fold_left see l' (view_of l).
Proof. unfold view_of. apply fold_left_app. Qed.

(** The watches an event reaches are those of the round the main thread
    is in. *)
Lemma watching_scheduled (signals : list signal) :
  watching env signals = [test_watch env; docs_watch env].
Proof.
  unfold watching. rewrite main_steps.
  rewrite (live_watches_watching _ _ (view_main signals)). reflexivity.
Qed.

End Views.

(** ** Paths below the project *)

Section Paths.

Lemma append_assoc (a b c : string) : (a ++ b) ++ c = a ++ (b ++ c).
Proof. induction a as [|x a IH]; simpl; [|rewrite IH]; reflexivity. Qed.

Lemma append_empty_r (a : string) : a ++ "" = a.
Proof. induction a as [|x a IH]; simpl; [|rewrite IH]; reflexivity. Qed.

Lemma prefix_append (a b c : string) :
  String.prefix (a ++ b) (a ++ c) = String.prefix b c.
Proof.
  induction a as [|x a IH]; [reflexivity|].
  simpl. destruct (ascii_dec x x) as [_|N]; [exact IH|].
  exfalso. apply N. reflexivity.
Qed.

Lemma prefix_self_append (a c : string) : String.prefix a (a ++ c) = true.
Proof.
  rewrite <- (append_empty_r a) at 1. rewrite prefix_append.
  destruct c; reflexivity.
Qed.

Lemma endswith_append (a : string) (x : ascii) (r : string) (c : ascii) :
  Str.endswith (a ++ String x r) c = Str.endswith (String x r) c.
Proof.
  induction a as [|y a IH]; [reflexivity|].
  cbn [append]. rewrite <- IH.
  destruct a; reflexivity.
Qed.

Lemma append_not_empty (a : string) (x : ascii) (r : string) :
  String.eqb (a ++ String x r) "" = false.
Proof. destruct a; reflexivity. Qed.

Lemma after_last_append (c : ascii) (a seg : string) :
  after_last c seg = None ->
  after_last c (a ++ String c seg) = Some seg.
Proof.
  intros H. induction a as [|x a IH].
  - simpl. rewrite H, Ascii.eqb_refl. reflexivity.
  - simpl. rewrite IH. reflexivity.
Qed.

(** The classifier sees only the name that follows the last separator. *)
Lemma getext_below (d name : string) :
  after_last PosixPath.sep name = None ->
  getext (d ++ String PosixPath.sep name) = getext name.
Proof.
  intros H. rewrite !getext_skipping_dots.
  unfold classify_skipping_dots, final_segment.
  rewrite (after_last_append _ d name H), H. reflexivity.
Qed.

Lemma join_src (base : string) :
  PosixPath.join base "src" = PosixPath.join base "" ++ "src".
Proof.
  unfold PosixPath.join. cbn [String.prefix].
  destruct (ascii_dec PosixPath.sep "s") as [E|_]; [discriminate E|].
  destruct (String.eqb base "" || Str.endswith base PosixPath.sep)%bool.
  - rewrite append_empty_r. reflexivity.
  - rewrite append_assoc. reflexivity.
Qed.


End Paths.

(** ** Events reaching the two handlers of [main] *)

Section Dispatch.

Variable env : Env.


(** Every command exits, with whatever status. *)
Hypothesis commands_exit : forall t cmd, os_exec env t cmd <> NotExecutable.

Lemma run_tests_exits (event : Event) (t : trace) :
  run_tests env event t =
  Ok tt (t ++ runner_effects env "Running unit tests" "busted" false t)%list.
Proof.
  rewrite run_tests_runs.
  destruct (os_exec env _ _) eqn:E; [reflexivity|].
  apply commands_exit in E. destruct E.
Qed.


Lemma on_any_event_returns (w : Watch) (event : Event) (t : trace) :
  w = test_watch env \/ w = docs_watch env ->
  exists t', on_any_event (w_handler w) event t = Ok (w_handler w) t'.
Proof.
  intros H. unfold on_any_event.
  destruct (is_directory event); [exists t; reflexivity|].
  destruct (list_mem _ _); [|exists t; reflexivity].
  unfold bind, ret.
  destruct H as [-> | ->]; cbn [test_watch docs_watch w_handler
                                ChangeHandler_init __func].
  - rewrite run_tests_exits. eexists. reflexivity.
  - rewrite build_docs_runs. eexists. reflexivity.
Qed.

Lemma dispatch_returns (event : Event) (t : trace) :
  exists t',
    dispatch_events [test_watch env; docs_watch env] event t =
    Ok [test_watch env; docs_watch env] t'.
Proof.
  cbn [dispatch_events]. unfold bind, ret.
  destruct (in_scope (test_watch env) (src_path event)).
  - destruct (on_any_event_returns (test_watch env) event t) as [t1 E1];
      [left; reflexivity|].
    rewrite E1.
    destruct (in_scope (docs_watch env) (src_path event)).
    + destruct (on_any_event_returns (docs_watch env) event t1) as [t2 E2];
        [right; reflexivity|].
      rewrite E2. exists t2. reflexivity.
    + exists t1. reflexivity.
  - destruct (in_scope (docs_watch env) (src_path event)).
    + destruct (on_any_event_returns (docs_watch env) event t) as [t2 E2];
        [right; reflexivity|].
      rewrite E2. exists t2. reflexivity.
    + exists t. reflexivity.
Qed.

(** No event, and no exit status, ends the delivery of events. *)
Lemma deliver_returns (events : list Event) (t : trace) :
  exists t',
    deliver [test_watch env; docs_watch env] events t =
    Ok [test_watch env; docs_watch env] t'.
Proof.
  revert t. induction events as [|e rest IH]; intros t.
  - exists t. reflexivity.
  - cbn [deliver]. unfold bind.
    destruct (dispatch_returns e t) as [t1 E]. rewrite E. apply IH.
Qed.

End Dispatch.

(** * The statements of the specification *)

(** ** The extension classifier *)

(** C2, as the specification words it, fails on a dot file: the segment
    [.bashrc] has the dot-delimited suffix [.bashrc], and the classifier
    gives the empty string. *)
Lemma C2_counterexample : getext ".bashrc" <> classify_spec ".bashrc".
Proof. vm_compute. discriminate. Qed.

(** C2 (amended): for every path, [getext] returns the lowercased suffix,
    from its last dot on, of the final path segment taken without the dots
    that open it, and the empty string when no dot is left there; so
    [getext "README"] is empty and [getext "a/b/c.LUA"] is [.lua].  The
    function is total. *)
Theorem C2_getext_classifies :
  (forall p : string, getext p = classify_skipping_dots p)
  /\ getext "README" = ""
  /\ getext "a/b/c.LUA" = ".lua"
  /\ getext "Foo.LUA" = ".lua".
Proof.
  split; [exact getext_skipping_dots|].
  repeat split; reflexivity.
Qed.

(** Where the final segment does not open with a dot the two readings
    agree. *)
Lemma getext_as_specified (p : string) :
  String.prefix "." (final_segment p) = false ->
  getext p = classify_spec p.
Proof.
  intros H. rewrite getext_skipping_dots.
  unfold classify_skipping_dots, classify_spec.
  destruct (final_segment p) as [|a r]; [reflexivity|].
  cbn [strip_leading_dots]. cbn [String.prefix] in H.
  destruct (ascii_dec "." a) as [E|N].
  - destruct r; discriminate H.
  - destruct (Ascii.eqb_spec a PosixPath.extsep) as [E|_]; [|reflexivity].
    exfalso. apply N. symmetry. exact E.
Qed.

(** C10: a path whose final segment opens with a dot and holds no other
    dot has the empty extension. *)
Theorem C10_dot_file_has_no_extension (p rest : string) :
  final_segment p = String "." rest ->
  Str.mem "." rest = false ->
  getext p = "".
Proof.
  intros Hseg Hrest. rewrite getext_skipping_dots.
  unfold classify_skipping_dots, last_dot_suffix. rewrite Hseg.
  cbn [strip_leading_dots Ascii.eqb Bool.eqb PosixPath.extsep].
  destruct (after_last PosixPath.extsep (strip_leading_dots rest)) eqn:E;
    [|reflexivity].
  apply after_last_strip in E.
  rewrite after_last_mem in Hrest.
  unfold PosixPath.extsep in E. rewrite E in Hrest. discriminate.
Qed.

Lemma C10_witness :
  getext "a/.gitignore" = "" /\ getext ".bashrc" = "".
Proof.
  split.
  - apply (C10_dot_file_has_no_extension "a/.gitignore" "gitignore");
      reflexivity.
  - apply (C10_dot_file_has_no_extension ".bashrc" "bashrc"); reflexivity.
Defined.

(** ** The change handler *)

(** C1: a directory event invokes nothing; a file event whose extension is
    watched invokes the bound action once, with that event; any other file
    event invokes nothing and raises nothing.  A handler built from
    [[".lua"; ".md"]] matches the files of these two extensions only. *)
Theorem C1_on_any_event_dispatches :
  (forall h event t,
      is_directory event = true -> on_any_event h event t = Ok h t)
  /\ (forall h event t,
         is_directory event = false ->
         In (getext (src_path event)) (__exts h) ->
         on_any_event h event t = (__func h event ;; ret h) t)
  /\ (forall h event t,
         is_directory event = false ->
         ~ In (getext (src_path event)) (__exts h) ->
         on_any_event h event t = Ok h t)
  /\ (forall exts event t,
         is_directory event = false ->
         In (getext (src_path event)) exts ->
         let h := ChangeHandler_init (Sequence exts) probe in
         on_any_event h event t =
         Ok h (t ++ [Print Stdout (src_path event)])%list)
  /\ (forall func event t,
         is_directory event = false ->
         let h := ChangeHandler_init (Sequence [".lua"; ".md"]) func in
         let ext := getext (src_path event) in
         on_any_event h event t =
         if (String.eqb ext ".lua" || String.eqb ext ".md")%bool
         then (func event ;; ret h) t
         else Ok h t).
Proof.
  split; [exact on_directory_event|].
  split; [exact on_watched_file|].
  split; [exact on_other_file|].
  split.
  - intros exts event t Hd Hin h.
    rewrite on_watched_file by assumption. reflexivity.
  - intros func event t Hd h ext.
    unfold on_any_event. rewrite Hd. fold ext.
    cbn [h ChangeHandler_init __exts __func list_mem existsb].
    rewrite orb_false_r.
    destruct (String.eqb ext ".lua" || String.eqb ext ".md")%bool;
      reflexivity.
Qed.

Lemma C1_witness :
  let h := ChangeHandler_init (Sequence [".lua"; ".md"]) probe in
  on_any_event h (directory_event "src/old.lua") [] = Ok h []
  /\ on_any_event h (file_event "src/Foo.LUA") [] =
     (probe (file_event "src/Foo.LUA") ;; ret h) []
  /\ on_any_event h (file_event "notes.txt") [] = Ok h []
  /\ on_any_event h (file_event "README.md") [] =
     Ok h [Print Stdout "README.md"].
Proof.
  intros h.
  destruct C1_on_any_event_dispatches as (A & B & C & D & _).
  split; [apply A; reflexivity|].
  split; [apply B; [reflexivity|simpl; left; reflexivity]|].
  split; [apply C; [reflexivity|]|].
  - simpl. intros [H|[H|[]]]; discriminate H.
  - apply (D [".lua"; ".md"] (file_event "README.md") []);
      [reflexivity|simpl; right; left; reflexivity].
Defined.

(** C8: [on_any_event] hands the handler back unchanged, and so does every
    delivery of events; a handler built from one string is the handler built
    from the one-element sequence of it; the order of the sequence does not
    change what an event does. *)
Theorem C8_extensions_fixed :
  (forall h event t,
      match on_any_event h event t with
      | Ok h' _ => h' = h
      | Raised _ _ => True
      end)
  /\ (forall ws events t,
         match deliver ws events t with
         | Ok ws' _ => ws' = ws
         | Raised _ _ => True
         end)
  /\ (forall s func,
         ChangeHandler_init (OneString s) func =
         ChangeHandler_init (Sequence [s]) func)
  /\ (forall l l' func event t,
         Permutation l l' ->
         outcome_of (on_any_event (ChangeHandler_init (Sequence l) func)
                       event t) =
         outcome_of (on_any_event (ChangeHandler_init (Sequence l') func)
                       event t)).
Proof.
  split.
  { intros h event t. destruct (on_any_event h event t) eqn:E; [|exact I].
    apply on_any_event_self in E. exact E. }
  split.
  { intros ws events t. destruct (deliver ws events t) eqn:E; [|exact I].
    apply deliver_same in E. exact E. }
  split; [reflexivity|].
  intros l l' func event t P.
  unfold on_any_event. cbn [ChangeHandler_init __exts __func].
  rewrite (list_mem_permutation _ l l' P).
  destruct (is_directory event); [reflexivity|].
  destruct (list_mem _ l'); [|reflexivity].
  unfold bind, ret. destruct (func event t); reflexivity.
Qed.

Lemma C8_witness :
  outcome_of (on_any_event (ChangeHandler_init (Sequence [".lua"; ".md"]) probe)
                (file_event "doc/index.md") []) =
  outcome_of (on_any_event (ChangeHandler_init (Sequence [".md"; ".lua"]) probe)
                (file_event "doc/index.md") []).
Proof.
  destruct C8_extensions_fixed as (_ & _ & _ & P).
  apply P. apply perm_swap.
Defined.



(** ** The command runners *)



(** C5, as worded, fails for the separators: they go to standard output. *)
Lemma C5_counterexample :
  ~ (forall f line,
        In (Print f line)
          (effects_of (build_docs sample_env (file_event "src/a.lua") [])) ->
        f = Stderr).
Proof.
  intros H. specialize (H Stdout separator).
  assert (E : Stdout = Stderr)
    by (apply H; vm_compute; right; left; reflexivity).
  discriminate E.
Qed.

(** C5 (amended): of the lines a runner prints, the banner
    [<label> at <YYYY/MM/DD HH:MM:SS>] is the one written to standard error;
    the separators, 79 characters [-] each, are written to standard output,
    one before the command and one after it. *)
Theorem C5_banner_on_stderr (env : Env) (event : Event) (t : trace) :
  (exists added,
      build_docs env event t = Ok tt (t ++ added)%list
      /\ printed Stderr added =
         ["Building docs at " ++ strftime (clock env t)]
      /\ printed Stdout added = [separator; separator])
  /\ (exists added,
         effects_of (run_tests env event t) = (t ++ added)%list
         /\ printed Stderr added =
            ["Running unit tests at " ++ strftime (clock env t)]
         /\ printed Stdout added =
            match run_tests env event t with
            | Ok _ _ => [separator; separator]
            | Raised _ _ => [separator]
            end)
  /\ String.length separator = 79%nat
  /\ separator = Str.replicate 79 "-"
  /\ (valid_datetime (clock env t) = true ->
      timestamp_shape (strftime (clock env t)) = true).
Proof.
  split.
  { exists (runner_effects env "Building docs" "ldoc.lua src" true t).
    rewrite build_docs_runs. repeat split; reflexivity. }
  split.
  { rewrite run_tests_runs. destruct (os_exec env _ _).
    - exists (runner_effects env "Running unit tests" "busted" false t).
      repeat split; reflexivity.
    - exists (runner_prologue env "Running unit tests" t).
      repeat split; reflexivity. }
  split; [reflexivity|]. split; [reflexivity|].
  apply strftime_shape.
Qed.

Lemma C5_witness :
  printed Stderr
    (effects_of (build_docs sample_env (file_event "src/a.lua") [])) =
  ["Building docs at 2013/04/09 17:05:30"]
  /\ timestamp_shape "2013/04/09 17:05:30" = true.
Proof.
  destruct (C5_banner_on_stderr sample_env (file_event "src/a.lua") [])
    as ((added & E & Herr & _) & _ & _ & _ & Hshape).
  split.
  - rewrite E. exact Herr.
  - apply Hshape. reflexivity.
Defined.

(** C6: a runner runs its command once for the event it is called with,
    and the exit status is dropped: whatever status the command exits with,
    the runner returns, having printed the closing separator after the
    command; what it does is the same in every world that differs in the
    exit statuses only; and the delivery of events goes on with the same
    watches. *)
Theorem C6_exit_status_discarded (env : Env) :
  (forall t cmd, os_exec env t cmd <> NotExecutable) ->
  (forall event t,
      exists added,
        build_docs env event t = Ok tt (t ++ added)%list
        /\ count_spawn "ldoc.lua src" added = 1%nat
        /\ List.length (spawned added) = 1%nat
        /\ last added (Chdir "") = Print Stdout separator)
  /\ (forall event t,
         exists added,
           run_tests env event t = Ok tt (t ++ added)%list
           /\ count_spawn "busted" added = 1%nat
           /\ List.length (spawned added) = 1%nat
           /\ last added (Chdir "") = Print Stdout separator)
  /\ (forall env' event t,
         BASEDIR env' = BASEDIR env ->
         clock env' = clock env ->
         (forall t' cmd, os_exec env' t' cmd <> NotExecutable) ->
         build_docs env' event t = build_docs env event t
         /\ run_tests env' event t = run_tests env event t)
  /\ (forall signals events t,
         exists t',
           deliver (watching env signals) events t =
           Ok (watching env signals) t').
Proof.
  intros H. split; [|split; [|split]].
  - intros event t.
    exists (runner_effects env "Building docs" "ldoc.lua src" true t).
    rewrite build_docs_runs. repeat split; reflexivity.
  - intros event t.
    exists (runner_effects env "Running unit tests" "busted" false t).
    rewrite (run_tests_exits env H). repeat split; reflexivity.
  - intros env' event t Hb Hc H'.
    rewrite !build_docs_runs, (run_tests_exits env H),
      (run_tests_exits env' H').
    unfold runner_effects, runner_prologue. rewrite Hb, Hc.
    split; reflexivity.
  - intros signals events t. rewrite watching_scheduled.
    apply deliver_returns. exact H.
Qed.

Lemma sample_commands_exit :
  forall t cmd, os_exec sample_env t cmd <> NotExecutable.
Proof.
  intros t cmd. simpl. destruct (String.eqb cmd "busted"); discriminate.
Qed.

Lemma C6_witness :
  os_exec sample_env [] "busted" = Exited 1
  /\ exists added,
       run_tests sample_env (file_event "spec/a_spec.lua") [] = Ok tt added
       /\ count_spawn "busted" added = 1%nat
       /\ last added (Chdir "") = Print Stdout separator.
Proof.
  split; [reflexivity|].
  destruct (C6_exit_status_discarded sample_env sample_commands_exit)
    as (_ & T & _ & _).
  destruct (T (file_event "spec/a_spec.lua") [])
    as (added & E & Hc & _ & Hl).
  exists added. split; [exact E|]. split; [exact Hc|exact Hl].
Defined.

(** ** The watch loop *)




(** C7: an interrupt received while watching is followed, in this order, by
    the stop of the observer, the join of it, and a new round that builds
    two new handlers and a new observer and registers the two watches
    again.  While the loop watches, the live handlers are the two of the
    round it is in; none is live between the stop and the next start, and
    none of a round is live in a later one. *)
Theorem C7_interrupt_restarts (env : Env) (pre post : list signal) :
  let n := (3 * interrupts pre)%nat in
  let m := (3 * (S (interrupts pre) + interrupts post))%nat in
  exists before after,
    main env pre = Some before
    /\ main env (pre ++ Interrupt :: post) =
       Some (before ++ [Interrupted; Stop (2 + n); Join (2 + n)]
             ++ setup_steps env (3 + n) ++ after)%list
    /\ live_handlers before = [n; (1 + n)%nat]
    /\ live_handlers (before ++ [Interrupted; Stop (2 + n)]) = []
    /\ live_handlers (before ++ [Interrupted; Stop (2 + n); Join (2 + n)]) = []
    /\ live_handlers (before ++ [Interrupted; Stop (2 + n); Join (2 + n)]
                      ++ setup_steps env (3 + n))
       = [(3 + n)%nat; (4 + n)%nat]
    /\ live_handlers (before ++ [Interrupted; Stop (2 + n); Join (2 + n)]
                      ++ setup_steps env (3 + n) ++ after)
       = [m; (1 + m)%nat].
Proof.
  intros n m.
  exists (setup_steps env 0 ++ watch_steps env 0 pre)%list,
         (watch_steps env (3 + n) post).
  pose proof (view_main env pre) as W. fold n in W.
  assert (Hwhole :
            (setup_steps env 0 ++ watch_steps env 0 (pre ++ Interrupt :: post)
             = (setup_steps env 0 ++ watch_steps env 0 pre)
               ++ [Interrupted; Stop (2 + n); Join (2 + n)]
               ++ setup_steps env (3 + n) ++ watch_steps env (3 + n) post)%list).
  { rewrite watch_steps_app, Nat.add_0_r. fold n.
    cbn [watch_steps]. rewrite <- !app_assoc. reflexivity. }
  split; [apply main_steps|].
  split; [rewrite main_steps, Hwhole; reflexivity|].
  split.
  { unfold live_handlers. rewrite (live_watches_watching env n _ W).
    reflexivity. }
  split.
  { unfold live_handlers. rewrite live_watches_idle; [reflexivity|].
    rewrite view_of_app. destruct W as (Hr & _).
    cbn [fold_left see running]. rewrite Hr. cbn [filter].
    rewrite Nat.eqb_refl. reflexivity. }
  split.
  { unfold live_handlers. rewrite live_watches_idle; [reflexivity|].
    rewrite view_of_app. apply (view_stop env n _ W). }
  split.
  { unfold live_handlers.
    rewrite (live_watches_watching env (3 + n)); [reflexivity|].
    rewrite app_assoc, view_of_app, view_of_app.
    apply (view_setup env), (view_stop env), W. }
  rewrite <- Hwhole.
  pose proof (view_main env (pre ++ Interrupt :: post)) as W'.
  replace (3 * interrupts (pre ++ Interrupt :: post))%nat with m in W'
    by (rewrite interrupts_app; unfold m, interrupts; simpl; lia).
  unfold live_handlers. rewrite (live_watches_watching env m _ W').
  reflexivity.
Qed.

Example main_two_rounds :
  option_map (@List.length step) (main sample_env [Tick; Interrupt; Tick]) =
  Some 17%nat.
Proof. reflexivity. Qed.

(** * Further properties of the script *)

(** ** What the classifier returns *)

Section ClassifierImage.

Lemma after_last_none_after (c : ascii) (s t : string) :
  after_last c s = Some t -> after_last c t = None.
Proof.
  revert t. induction s as [|a r IH]; intros t H; [discriminate H|].
  simpl in H. destruct (after_last c r) as [u|] eqn:E.
  - injection H as <-. apply IH. reflexivity.
  - destruct (Ascii.eqb a c); [|discriminate H].
    injection H as <-. exact E.
Qed.

Lemma mem_false_after_last (c : ascii) (s : string) :
  Str.mem c s = false <-> after_last c s = None.
Proof.
  rewrite after_last_mem. destruct (after_last c s); split; intros H;
    congruence.
Qed.

(** What follows the last [c] holds no character the whole does not hold. *)
Lemma mem_after_last (c x : ascii) (s t : string) :
  after_last c s = Some t -> Str.mem x s = false -> Str.mem x t = false.
Proof.
  revert t. induction s as [|a r IH]; intros t H Hm; [discriminate H|].
  simpl in H, Hm. apply orb_false_iff in Hm as [_ Hm].
  destruct (after_last c r) as [u|] eqn:E.
  - injection H as <-. apply IH; [reflexivity|exact Hm].
  - destruct (Ascii.eqb a c); [|discriminate H].
    injection H as <-. exact Hm.
Qed.

Lemma mem_strip_any (x : ascii) (s : string) :
  Str.mem x s = false -> Str.mem x (strip_leading_dots s) = false.
Proof.
  induction s as [|a r IH]; intros H; [reflexivity|].
  simpl strip_leading_dots.
  destruct (Ascii.eqb a PosixPath.extsep); [|exact H].
  simpl in H. apply orb_false_iff in H as [_ H]. apply IH, H.
Qed.

Lemma final_segment_no_sep (p : string) :
  Str.mem PosixPath.sep (final_segment p) = false.
Proof.
  apply mem_false_after_last. unfold final_segment.
  destruct (after_last PosixPath.sep p) as [t|] eqn:E.
  - apply (after_last_none_after _ _ _ E).
  - exact E.
Qed.

Lemma lower_char_keeps_dot (a : ascii) :
  Ascii.eqb (Str.lower_char a) PosixPath.extsep = Ascii.eqb a PosixPath.extsep.
Proof. destruct a as [[] [] [] [] [] [] [] []]; reflexivity. Qed.

Lemma lower_char_keeps_sep (a : ascii) :
  Ascii.eqb (Str.lower_char a) PosixPath.sep = Ascii.eqb a PosixPath.sep.
Proof. destruct a as [[] [] [] [] [] [] [] []]; reflexivity. Qed.


Lemma mem_lower (c : ascii) (s : string) :
  (forall a, Ascii.eqb (Str.lower_char a) c = Ascii.eqb a c) ->
  Str.mem c (Str.lower s) = Str.mem c s.
Proof.
  intros H. induction s as [|a r IH]; [reflexivity|].
  simpl. rewrite H, IH. reflexivity.
Qed.






Lemma getext_well_formed (p : string) : well_formed_ext (getext p) = true.
Proof.
  rewrite getext_skipping_dots.
  unfold classify_skipping_dots, last_dot_suffix.
  pose proof (mem_strip_any PosixPath.sep _ (final_segment_no_sep p)) as Hs.
  destruct (after_last PosixPath.extsep (strip_leading_dots (final_segment p)))
    as [t|] eqn:E; [|reflexivity].
  cbn [Str.lower well_formed_ext].
  change (Str.lower_char PosixPath.extsep) with PosixPath.extsep.
  rewrite Ascii.eqb_refl. unfold plain_suffix.
  rewrite (mem_lower _ t lower_char_keeps_dot),
    (mem_lower _ t lower_char_keeps_sep), lower_has_no_upper.
  apply after_last_none_after in E as Hd.
  apply mem_false_after_last in Hd. rewrite Hd.
  rewrite (mem_after_last _ _ _ _ E Hs). reflexivity.
Qed.

End ClassifierImage.




(** X3: the directories of a path do not matter, whatever dots they hold:
    the extension is that of the name after the last separator. *)
Theorem X3_getext_ignores_directories (d name : string) :
  Str.mem PosixPath.sep name = false ->
  getext (d ++ String PosixPath.sep name) = getext name.
Proof.
  intros H. apply getext_below, mem_false_after_last, H.
Qed.

Lemma X3_witness :
  getext "lib.d/v1.2/README" = getext "README"
  /\ getext "/home/dev/lua-ext/src/ext.LUA" = getext "ext.LUA".
Proof.
  split.
  - apply (X3_getext_ignores_directories "lib.d/v1.2" "README"). reflexivity.
  - apply (X3_getext_ignores_directories "/home/dev/lua-ext/src" "ext.LUA").
    reflexivity.
Defined.



(** ** What a handler can be made to watch *)

Section HandlerFacts.

Lemma list_mem_same_elements (x : string) (l l' : list string) :
  (forall y, In y l <-> In y l') -> list_mem x l = list_mem x l'.
Proof.
  intros H. destruct (list_mem x l') eqn:E.
  - apply list_mem_In, H, list_mem_In, E.
  - apply list_mem_not_In. apply list_mem_not_In in E.
    intros Hin. apply E, H, Hin.
Qed.

End HandlerFacts.

(** X5: a handler none of whose watched extensions has the form the
    classifier returns never invokes its action: so with the empty list,
    with an extension given without its dot, with two dots, or with a
    pattern. *)
Theorem X5_malformed_extensions_never_match (h : ChangeHandler)
    (event : Event) (t : trace) :
  forallb (fun e => negb (well_formed_ext e)) (__exts h) = true ->
  on_any_event h event t = Ok h t.
Proof.
  intros H. unfold on_any_event.
  destruct (is_directory event); [reflexivity|].
  replace (list_mem (getext (src_path event)) (__exts h)) with false;
    [reflexivity|].
  symmetry. apply list_mem_not_In. intros Hin.
  rewrite forallb_forall in H. apply H in Hin.
  rewrite getext_well_formed in Hin. discriminate Hin.
Qed.

Lemma X5_witness :
  on_any_event (ChangeHandler_init (Sequence ["lua"; ".tar.gz"; "*.lua"]) probe)
    (file_event "src/a.lua") [] =
  Ok (ChangeHandler_init (Sequence ["lua"; ".tar.gz"; "*.lua"]) probe) []
  /\ on_any_event (ChangeHandler_init (Sequence []) probe)
       (file_event "src/a.lua") [] =
     Ok (ChangeHandler_init (Sequence []) probe) [].
Proof.
  split.
  - apply (X5_malformed_extensions_never_match
             (ChangeHandler_init (Sequence ["lua"; ".tar.gz"; "*.lua"]) probe)).
    reflexivity.
  - apply (X5_malformed_extensions_never_match
             (ChangeHandler_init (Sequence []) probe)).
    reflexivity.
Defined.

(** X6: what an event does depends on which extensions are watched, not on
    how often or where they stand in the sequence: an extension given twice
    does not make the action run twice. *)
Theorem X6_extensions_as_a_set (l l' : list string) (func : Event -> M unit)
    (event : Event) (t : trace) :
  (forall e, In e l <-> In e l') ->
  outcome_of (on_any_event (ChangeHandler_init (Sequence l) func) event t) =
  outcome_of (on_any_event (ChangeHandler_init (Sequence l') func) event t).
Proof.
  intros H. unfold on_any_event. cbn [ChangeHandler_init __exts __func].
  rewrite (list_mem_same_elements _ l l' H).
  destruct (is_directory event); [reflexivity|].
  destruct (list_mem _ l'); [|reflexivity].
  unfold bind, ret. destruct (func event t); reflexivity.
Qed.

Lemma X6_witness :
  outcome_of (on_any_event
                (ChangeHandler_init (Sequence [".lua"; ".md"; ".lua"]) probe)
                (file_event "a.lua") []) =
  Ok tt [Print Stdout "a.lua"].
Proof.
  rewrite (X6_extensions_as_a_set [".lua"; ".md"; ".lua"] [".md"; ".lua"]).
  - reflexivity.
  - intros e. simpl. split.
    + intros [H|[H|[H|[]]]]; auto.
    + intros [H|[H|[]]]; auto.
Defined.

(** X7: the handler raises exactly what its action raises: an exception
    leaves [on_any_event] if and only if the event is a file event of a
    watched extension and the action raised it, with the effects the action
    had up to there. *)
Theorem X7_handler_propagates_exceptions (h : ChangeHandler) (event : Event)
    (t t' : trace) (e : exn) :
  on_any_event h event t = Raised e t' <->
  (is_directory event = false
   /\ In (getext (src_path event)) (__exts h)
   /\ __func h event t = Raised e t').
Proof.
  unfold on_any_event. split.
  - destruct (is_directory event); [discriminate|].
    destruct (list_mem _ _) eqn:E; [|discriminate].
    apply list_mem_In in E. unfold bind, ret.
    destruct (__func h event t) as [u t1|e1 t1]; [discriminate|].
    intros H. injection H as -> ->. auto.
  - intros (Hd & Hin & Hf). rewrite Hd.
    apply list_mem_In in Hin. rewrite Hin.
    unfold bind. rewrite Hf. reflexivity.
Qed.

(** ** The runners, failing and changing directory *)

Section RunnerFacts.



End RunnerFacts.




(** ** Which events run which command *)

Section DispatchFacts.

Variable env : Env.

Lemma count_spawn_app (cmd : string) (a b : trace) :
  count_spawn cmd (a ++ b)%list = (count_spawn cmd a + count_spawn cmd b)%nat.
Proof. unfold count_spawn. rewrite filter_app, length_app. reflexivity. Qed.

(** An event that triggers neither handler leaves no effect, whether the
    commands could be run or not. *)
Lemma dispatch_no_trigger (event : Event) (t : trace) :
  triggers (test_watch env) event = false ->
  triggers (docs_watch env) event = false ->
  dispatch_events [test_watch env; docs_watch env] event t =
  Ok [test_watch env; docs_watch env] t.
Proof.
  unfold triggers. intros H1 H2.
  cbn [dispatch_events]. unfold bind, ret, on_any_event.
  destruct (is_directory event).
  - destruct (in_scope (test_watch env) _), (in_scope (docs_watch env) _);
      reflexivity.
  - cbn [negb andb] in H1, H2.
    destruct (in_scope (test_watch env) _); cbn [andb] in H1;
      destruct (in_scope (docs_watch env) _); cbn [andb] in H2;
      try rewrite H1; try rewrite H2; reflexivity.
Qed.

Hypothesis commands_exit : forall t cmd, os_exec env t cmd <> NotExecutable.

(** What one event adds: a test run if it triggers the test handler, a
    documentation build if it triggers the other. *)
Lemma dispatch_counts (event : Event) (t : trace) :
  exists added,
    dispatch_events [test_watch env; docs_watch env] event t =
    Ok [test_watch env; docs_watch env] (t ++ added)%list
    /\ count_spawn "busted" added =
       (if triggers (test_watch env) event then 1 else 0)%nat
    /\ count_spawn "ldoc.lua src" added =
       (if triggers (docs_watch env) event then 1 else 0)%nat.
Proof.
  unfold triggers. cbn [dispatch_events]. unfold bind, ret, on_any_event.
  destruct (is_directory event).
  { exists []. rewrite app_nil_r.
    destruct (in_scope (test_watch env) _), (in_scope (docs_watch env) _);
      repeat split; reflexivity. }
  cbn [negb andb].
  destruct (in_scope (test_watch env) _); cbn [andb];
    destruct (in_scope (docs_watch env) _); cbn [andb];
    try destruct (list_mem _ (__exts (w_handler (test_watch env))));
    try destruct (list_mem _ (__exts (w_handler (docs_watch env))));
    cbn [test_watch docs_watch w_handler ChangeHandler_init __func];
    unfold bind, ret;
    rewrite ?(run_tests_exits env commands_exit); cbv beta iota;
    rewrite ?build_docs_runs; cbv beta iota;
    rewrite <- ?app_assoc;
    try (exists []; rewrite app_nil_r; repeat split; reflexivity);
    (eexists; split; [reflexivity|split; reflexivity]).
Qed.

Lemma deliver_counts (events : list Event) (t : trace) :
  exists added,
    deliver [test_watch env; docs_watch env] events t =
    Ok [test_watch env; docs_watch env] (t ++ added)%list
    /\ count_spawn "busted" added =
       List.length (filter (triggers (test_watch env)) events)
    /\ count_spawn "ldoc.lua src" added =
       List.length (filter (triggers (docs_watch env)) events).
Proof.
  revert t. induction events as [|e rest IH]; intros t.
  - exists []. rewrite app_nil_r. repeat split; reflexivity.
  - destruct (dispatch_counts e t) as (a1 & E1 & Ht1 & Hd1).
    destruct (IH (t ++ a1)%list) as (a2 & E2 & Ht2 & Hd2).
    exists (a1 ++ a2)%list. cbn [deliver]. unfold bind.
    rewrite E1, E2, app_assoc. split; [reflexivity|].
    rewrite !count_spawn_app, Ht1, Ht2, Hd1, Hd2. cbn [filter].
    destruct (triggers (test_watch env) e),
             (triggers (docs_watch env) e); split; reflexivity.
Qed.

End DispatchFacts.

Section Scopes.

Variable env : Env.

(** Below the project everything is in the scope of the test watch, and
    what is below [src] is in the scope of the other. *)
Lemma scopes_below_project (rel : string) :
  let p := PosixPath.join (BASEDIR env) "" ++ rel in
  in_scope (test_watch env) p = true
  /\ in_scope (docs_watch env) p = String.prefix "src/" rel.
Proof.
  intros p. unfold in_scope, p.
  cbn [test_watch docs_watch w_path w_recursive].
  rewrite orb_true_l, !andb_true_r, prefix_self_append.
  split; [reflexivity|].
  assert (E : PosixPath.join (PosixPath.join (BASEDIR env) "src") "" =
              PosixPath.join (BASEDIR env) "" ++ "src/").
  { unfold PosixPath.join at 1. cbn [String.prefix].
    rewrite join_src, append_not_empty, endswith_append.
    cbn [Str.endswith Ascii.eqb Bool.eqb PosixPath.sep orb].
    rewrite append_assoc. reflexivity. }
  rewrite E. apply prefix_append.
Qed.

Lemma split_at_last (c : ascii) (s name : string) :
  after_last c s = Some name ->
  exists pre, s = pre ++ String c name.
Proof.
  revert name. induction s as [|a r IH]; intros name H; [discriminate H|].
  simpl in H. destruct (after_last c r) as [u|] eqn:E.
  - injection H as <-. destruct (IH u eq_refl) as [pre Hpre].
    exists (String a pre). simpl. rewrite <- Hpre. reflexivity.
  - destruct (Ascii.eqb_spec a c) as [->|]; [|discriminate H].
    injection H as <-. exists EmptyString. reflexivity.
Qed.

Lemma endswith_split (s : string) (c : ascii) :
  Str.endswith s c = true -> exists pre, s = pre ++ String c EmptyString.
Proof.
  induction s as [|a r IH]; intros H; [discriminate H|].
  destruct r as [|b r'].
  - simpl in H. apply Ascii.eqb_eq in H. subst a.
    exists EmptyString. reflexivity.
  - destruct (IH H) as [pre Hpre]. exists (String a pre).
    simpl. rewrite <- Hpre. reflexivity.
Qed.

(** [join(base, "")] is empty or ends with the separator. *)
Lemma join_empty_form (base : string) :
  PosixPath.join base "" = EmptyString
  \/ exists d, PosixPath.join base "" = d ++ String PosixPath.sep EmptyString.
Proof.
  unfold PosixPath.join. cbn [String.prefix].
  destruct (String.eqb_spec base "") as [->|_].
  - left. reflexivity.
  - cbn [orb]. destruct (Str.endswith base PosixPath.sep) eqn:E.
    + right. rewrite append_empty_r. apply endswith_split, E.
    + right. exists base. reflexivity.
Qed.

(** Below the project the extension is that of the relative path. *)
Lemma getext_below_project (rel : string) :
  getext (PosixPath.join (BASEDIR env) "" ++ rel) = getext rel.
Proof.
  destruct (join_empty_form (BASEDIR env)) as [->|[d ->]]; [reflexivity|].
  destruct (after_last PosixPath.sep rel) as [name|] eqn:E.
  - destruct (split_at_last _ _ _ E) as [pre ->].
    pose proof (after_last_none_after _ _ _ E) as Hn.
    rewrite <- append_assoc, !getext_below by exact Hn. reflexivity.
  - rewrite append_assoc. cbn [append]. apply getext_below, E.
Qed.

End Scopes.

(** X10: events are not merged or held back: of the events delivered, every
    one that triggers the test handler runs the tests once, and every one
    that triggers the other handler builds the documentation once. *)
Theorem X10_one_run_per_event (env : Env) (signals : list signal)
    (events : list Event) (t : trace) :
  (forall t' cmd, os_exec env t' cmd <> NotExecutable) ->
  exists added,
    deliver (watching env signals) events t =
    Ok (watching env signals) (t ++ added)%list
    /\ count_spawn "busted" added =
       List.length (filter (triggers (test_watch env)) events)
    /\ count_spawn "ldoc.lua src" added =
       List.length (filter (triggers (docs_watch env)) events).
Proof.
  intros H. rewrite watching_scheduled. apply deliver_counts, H.
Qed.

Lemma X10_witness :
  exists added,
    deliver (watching sample_env [])
      [file_event "/home/dev/lua-ext/src/a.lua";
       file_event "/home/dev/lua-ext/src/a.lua";
       file_event "/home/dev/lua-ext/spec/a_spec.lua";
       directory_event "/home/dev/lua-ext/src"] [] =
    Ok (watching sample_env []) added
    /\ count_spawn "busted" added = 3%nat
    /\ count_spawn "ldoc.lua src" added = 2%nat.
Proof.
  exact (X10_one_run_per_event sample_env []
           [file_event "/home/dev/lua-ext/src/a.lua";
            file_event "/home/dev/lua-ext/src/a.lua";
            file_event "/home/dev/lua-ext/spec/a_spec.lua";
            directory_event "/home/dev/lua-ext/src"] []
           sample_commands_exit).
Defined.

(** X11: a changed Lua file anywhere below the project runs the tests; it
    builds the documentation as well exactly when it lies below [src]. *)
Theorem X11_docs_only_below_src (env : Env) (signals : list signal)
    (rel : string) (t : trace) :
  (forall t' cmd, os_exec env t' cmd <> NotExecutable) ->
  getext rel = ".lua" ->
  exists added,
    deliver (watching env signals)
      [file_event (PosixPath.join (BASEDIR env) "" ++ rel)] t =
    Ok (watching env signals) (t ++ added)%list
    /\ count_spawn "busted" added = 1%nat
    /\ count_spawn "ldoc.lua src" added =
       (if String.prefix "src/" rel then 1 else 0)%nat.
Proof.
  intros H Hext. rewrite watching_scheduled.
  destruct (deliver_counts env H
              [file_event (PosixPath.join (BASEDIR env) "" ++ rel)] t)
    as (added & E & Ht & Hd).
  exists added. split; [exact E|].
  destruct (scopes_below_project env rel) as [S1 S2].
  pose proof (getext_below_project env rel) as Hp. rewrite Hext in Hp.
  unfold triggers in Ht, Hd.
  cbn [file_event src_path is_directory negb andb filter] in Ht, Hd.
  rewrite S1, S2, Hp in *.
  cbn [test_watch docs_watch w_handler ChangeHandler_init __exts list_mem
       existsb String.eqb Ascii.eqb Bool.eqb orb andb] in Ht, Hd.
  split; [exact Ht|].
  rewrite Hd. destruct (String.prefix "src/" rel); reflexivity.
Qed.

Lemma X11_witness :
  (exists added,
      deliver (watching sample_env [])
        [file_event "/home/dev/lua-ext/spec/a_spec.lua"] [] =
      Ok (watching sample_env []) added
      /\ count_spawn "busted" added = 1%nat
      /\ count_spawn "ldoc.lua src" added = 0%nat)
  /\ (exists added,
         deliver (watching sample_env [])
           [file_event "/home/dev/lua-ext/src/ext/a.lua"] [] =
         Ok (watching sample_env []) added
         /\ count_spawn "busted" added = 1%nat
         /\ count_spawn "ldoc.lua src" added = 1%nat).
Proof.
  split.
  - apply (X11_docs_only_below_src sample_env [] "spec/a_spec.lua" []
             sample_commands_exit). reflexivity.
  - apply (X11_docs_only_below_src sample_env [] "src/ext/a.lua" []
             sample_commands_exit). reflexivity.
Defined.

(** X12: events of directories and of files that are not Lua files have no
    effect at all, and raise nothing, even where no command can be
    executed. *)
Theorem X12_other_events_do_nothing (env : Env) (signals : list signal)
    (events : list Event) (t : trace) :
  forallb (fun ev => (is_directory ev
                      || negb (String.eqb (getext (src_path ev)) ".lua"))%bool)
    events = true ->
  deliver (watching env signals) events t = Ok (watching env signals) t.
Proof.
  intros H. rewrite watching_scheduled. revert t.
  induction events as [|e rest IH]; intros t; [reflexivity|].
  cbn [forallb] in H. apply andb_true_iff in H as [He Hrest].
  cbn [deliver]. unfold bind.
  rewrite dispatch_no_trigger.
  - apply IH, Hrest.
  - unfold triggers.
    cbn [test_watch w_handler ChangeHandler_init __exts list_mem existsb].
    destruct (is_directory e); [reflexivity|]. cbn [orb negb] in He.
    rewrite orb_false_r. apply negb_true_iff in He. rewrite He.
    apply andb_false_r.
  - unfold triggers.
    cbn [docs_watch w_handler ChangeHandler_init __exts list_mem existsb].
    destruct (is_directory e); [reflexivity|]. cbn [orb negb] in He.
    rewrite orb_false_r. apply negb_true_iff in He. rewrite He.
    apply andb_false_r.
Qed.

Lemma X12_witness :
  deliver (watching bare_env [])
    [file_event "/home/dev/lua-ext/README.md";
     directory_event "/home/dev/lua-ext/src/old.lua";
     file_event "/home/dev/lua-ext/src/.lua"] [] =
  Ok (watching bare_env []) [].
Proof.
  apply (X12_other_events_do_nothing bare_env []
           [file_event "/home/dev/lua-ext/README.md";
            directory_event "/home/dev/lua-ext/src/old.lua";
            file_event "/home/dev/lua-ext/src/.lua"] []).
  reflexivity.
Defined.

(** ** The rounds of the watch loop *)

Section Rounds.

Variable env : Env.







End Rounds.

(** X13: a restart changes nothing in what is watched: after any ticks and
    interrupts the watches an event reaches are the same two, the test
    handler on the project directory and the documentation handler on its
    [src], both recursive and both for [.lua]. *)
Theorem X13_restart_keeps_configuration (env : Env) (signals : list signal) :
  watching env signals = watching env []
  /\ map w_path (watching env signals) =
     [BASEDIR env; PosixPath.join (BASEDIR env) "src"]
  /\ map w_recursive (watching env signals) = [true; true]
  /\ map (fun w => __exts (w_handler w)) (watching env signals) =
     [[".lua"]; [".lua"]].
Proof.
  rewrite !watching_scheduled. repeat split; reflexivity.
Qed.

